(** * Self-Mastery API: schemas (schemas.py) and coach plan (main.py)

    The development has these parts.

    - [Module Py]: the Python values that travel through the service (JSON
      bodies after parsing, model instances after validation, stored
      documents) and the result type used for fallible steps.
    - [Module Schemas]: the twelve pydantic models of [schemas.py] as field
      tables, together with the validation that pydantic's [BaseModel]
      performs on them (required fields, types, [Literal] sets, [ge]/[le]
      bounds, defaults).
    - [Module Main]: the document store behind [get_documents] /
      [create_document] and the handler [generate_coach_plan] of [main.py].
    - [Module Instances], [Module Endpoints], [Module Diagnostics]: what a
      validated instance looks like, the create and list handlers of
      [main.py], and its diagnostic handler [test_database].

    Dictionaries are finite maps with string keys; floats are binary64 values
    in the representation of the Standard Library's [SpecFloat]. *)

From Stdlib Require Import ZArith Ascii String List Floats.SpecFloat.
From stdpp Require Import gmap strings list fin_maps.

Open Scope string_scope.
Set Warnings "-register-all".

(* ===================================================================== *)
(** ** Python values *)
(* ===================================================================== *)

Module Py.

(** A Python value as it appears in a request body, a model instance or a
    stored document.  The contents of a nested [dict] are never inspected by
    the service, so they are kept as the list of items in insertion order. *)
Inductive pyval : Type :=
| PNone
| PBool (b : bool)
| PInt (z : Z)
| PFloat (f : spec_float)
| PStr (s : string)
| PList (l : list pyval)
| PDict (d : list (string * pyval))
| PDatetime (t : Z).

(** Outcome of a step that may fail with an error of type [E]. *)
Inductive result (E A : Type) : Type :=
| Ok (a : A)
| Err (e : E).
Arguments Ok {E A} a.
Arguments Err {E A} e.

Definition is_ok {E A} (r : result E A) : bool :=
  match r with Ok _ => true | Err _ => false end.

(** Float constants of the source, as binary64 values. *)
Definition f_zero : spec_float := S754_zero false.                       (* 0.0 *)
Definition f_one : spec_float := S754_finite false 4503599627370496 (-52). (* 1.0 *)
Definition f_0_6 : spec_float := S754_finite false 5404319552844595 (-53). (* 0.6 *)
Definition f_0_2 : spec_float := S754_finite false 7205759403792794 (-55). (* 0.2 *)

(** [float(z)] for a Python integer: the nearest binary64 value, ties to
    even; an integer too large for a float raises [OverflowError]. *)
Definition float_of_int (z : Z) : option spec_float :=
  match binary_normalize 53 1024 z 0 false with
  | S754_infinity _ => None
  | x => Some x
  end.

End Py.
Export Py.

(* ===================================================================== *)
(** ** schemas.py *)
(* ===================================================================== *)

Module Schemas.

(** Type annotations used by the models of [schemas.py]. *)
Inductive ftype : Type :=
| TStr                          (* str *)
| TInt                          (* int *)
| TFloat                        (* float *)
| TBool                         (* bool *)
| TDict                         (* dict *)
| TDatetime                     (* datetime *)
| TList (t : ftype)             (* List[t] *)
| TOptional (t : ftype)         (* Optional[t] *)
| TLiteral (vs : list string).  (* Literal["a", "b", ...] *)

(** One field declaration of a model: its name, annotation, default
    ([None] for a required field, i.e. no default or [Field(...)]) and the
    [ge] / [le] bounds given to [Field]. *)
Record field : Type := MkField {
  f_name : string;
  f_type : ftype;
  f_default : option pyval;
  f_ge : option spec_float;
  f_le : option spec_float
}.

Definition req (n : string) (t : ftype) : field := MkField n t None None None.
Definition opt (n : string) (t : ftype) (d : pyval) : field :=
  MkField n t (Some d) None None.
Definition opt_range (n : string) (t : ftype) (d : pyval) (ge le : spec_float) : field :=
  MkField n t (Some d) (Some ge) (Some le).

(** *** The models, field by field in declaration order *)

Definition Profile : list field :=
  [ req "user_id" TStr;
    req "name" TStr;
    req "age_group" (TLiteral ["teen"; "young_adult"; "adult"; "senior"]);
    opt "goals" (TList TStr) (PList []);
    opt "discipline_score" TFloat (PFloat f_zero);
    opt "theme" TStr (PStr "neon-blue");
    opt "created_at" (TOptional TDatetime) PNone;
    opt "updated_at" (TOptional TDatetime) PNone ].

Definition Preferences : list field :=
  [ req "user_id" TStr;
    opt "theme_color" TStr (PStr "#00E5FF");
    opt_range "glow_intensity" TFloat (PFloat f_0_6) f_zero f_one;
    opt_range "card_opacity" TFloat (PFloat f_0_2) f_zero f_one;
    opt "font_family" TStr (PStr "Inter");
    opt "minimal_mode" TBool (PBool false);
    opt "notifications" TBool (PBool true);
    opt "backup_enabled" TBool (PBool false);
    opt "created_at" (TOptional TDatetime) PNone;
    opt "updated_at" (TOptional TDatetime) PNone ].

Definition Habit : list field :=
  [ req "user_id" TStr;
    req "name" TStr;
    opt "icon" TStr (PStr "Star");
    opt "glow_color" TStr (PStr "#7C3AED");
    opt "schedule" (TList TStr) (PList []);
    opt "streak" TInt (PInt 0);
    opt "analytics" TDict (PDict []);
    opt "archived" TBool (PBool false) ].

Definition Routine : list field :=
  [ req "user_id" TStr;
    req "period" (TLiteral ["morning"; "afternoon"; "night"]);
    req "title" TStr;
    opt "tasks" (TList TDict) (PList []);
    opt "animated" TBool (PBool true) ].

Definition Task : list field :=
  [ req "user_id" TStr;
    req "title" TStr;
    opt "notes" (TOptional TStr) PNone;
    opt "due_date" (TOptional TStr) PNone;
    opt "status" (TLiteral ["todo"; "in_progress"; "done"]) (PStr "todo");
    opt "pomodoro_minutes" (TOptional TInt) (PInt 25);
    opt "order" TInt (PInt 0) ].

Definition JournalEntry : list field :=
  [ req "user_id" TStr;
    req "date" TStr;
    opt "template" (TLiteral ["gratitude"; "reflection"; "ideas"; "free"]) (PStr "free");
    req "content" TStr;
    opt "locked" TBool (PBool false) ].

Definition Mood : list field :=
  [ req "user_id" TStr;
    req "date" TStr;
    req "mood" (TLiteral ["ecstatic"; "happy"; "calm"; "neutral"; "stressed"; "sad"]);
    opt "reason" (TOptional TStr) PNone ].

Definition MoneyRecord : list field :=
  [ req "user_id" TStr;
    req "date" TStr;
    req "type" (TLiteral ["income"; "expense"; "saving"]);
    req "amount" TFloat;
    opt "note" (TOptional TStr) PNone ].

Definition SavingsGoal : list field :=
  [ req "user_id" TStr;
    req "name" TStr;
    req "target" TFloat;
    opt "progress" TFloat (PFloat f_zero) ].

Definition FitnessMetric : list field :=
  [ req "user_id" TStr;
    req "date" TStr;
    opt "weight" (TOptional TFloat) PNone;
    opt "steps" (TOptional TInt) PNone;
    opt "hydration_liters" (TOptional TFloat) PNone;
    opt "skincare" (TList TStr) (PList []);
    opt "gym_routine" (TList TDict) (PList []);
    opt "checklist" (TList TDict) (PList []) ].

Definition Challenge : list field :=
  [ opt "user_id" (TOptional TStr) PNone;
    req "slug" TStr;
    req "title" TStr;
    req "days" TInt;
    req "category" (TLiteral ["discipline"; "glowup"; "money"]);
    req "description" TStr ].

Definition CoachPlan : list field :=
  [ req "user_id" TStr;
    req "date" TStr;
    req "summary" TStr;
    opt "focus" (TList TStr) (PList []);
    opt "actions" (TList TDict) (PList []) ].

(** The record kinds, in the order of [export_schemas]. *)
Inductive kind : Type :=
| KProfile | KPreferences | KHabit | KRoutine | KTask | KJournalEntry
| KMood | KMoneyRecord | KSavingsGoal | KFitnessMetric | KChallenge | KCoachPlan.

Definition models : list kind :=
  [ KProfile; KPreferences; KHabit; KRoutine; KTask; KJournalEntry;
    KMood; KMoneyRecord; KSavingsGoal; KFitnessMetric; KChallenge; KCoachPlan ].

Definition schema (k : kind) : list field :=
  match k with
  | KProfile => Profile
  | KPreferences => Preferences
  | KHabit => Habit
  | KRoutine => Routine
  | KTask => Task
  | KJournalEntry => JournalEntry
  | KMood => Mood
  | KMoneyRecord => MoneyRecord
  | KSavingsGoal => SavingsGoal
  | KFitnessMetric => FitnessMetric
  | KChallenge => Challenge
  | KCoachPlan => CoachPlan
  end.

(** *** Validation of a payload against a model

    [BaseModel] validates every declared field of the payload, collects the
    errors of all fields that fail, and builds the instance only when none
    does.  Keys of the payload that the model does not declare are ignored.
    Of the error report only the fields it names are kept here, each once,
    in declaration order; the library's report has one entry per error, so
    it can name a list field once for each bad item.

    A value of the annotated type is taken as it is, and an integer is taken
    for a float.  For [int], [float], [bool] and [datetime] the validator
    also converts some values of other types (a numeric string for a float,
    a whole float for an integer, and so on); these conversions belong to the
    validation library and are the four functions of [conversions], over
    which everything below is stated.  [str], [dict], [List] and [Literal]
    take a value of their own type only. *)

Record conversions : Type := MkConversions {
  to_int : pyval → option Z;
  to_float : pyval → option spec_float;
  to_bool : pyval → option bool;
  to_datetime : pyval → option Z
}.

(** The validator without any further conversion (pydantic's strict mode). *)
Definition strict : conversions :=
  MkConversions (λ _, None) (λ _, None) (λ _, None) (λ _, None).

Section Validation.

Variable conv : conversions.

Fixpoint validate_type (t : ftype) (v : pyval) : option pyval :=
  match t with
  | TStr => match v with PStr s => Some (PStr s) | _ => None end
  | TInt => match v with PInt z => Some (PInt z) | _ => PInt <$> to_int conv v end
  | TFloat =>
      match v with
      | PFloat f => Some (PFloat f)
      | PInt z => PFloat <$> float_of_int z
      | _ => PFloat <$> to_float conv v
      end
  | TBool => match v with PBool b => Some (PBool b) | _ => PBool <$> to_bool conv v end
  | TDict => match v with PDict d => Some (PDict d) | _ => None end
  | TDatetime =>
      match v with PDatetime d => Some (PDatetime d) | _ => PDatetime <$> to_datetime conv v end
  | TList t' =>
      match v with PList l => PList <$> mapM (validate_type t') l | _ => None end
  | TOptional t' =>
      match v with PNone => Some PNone | _ => validate_type t' v end
  | TLiteral vs =>
      match v with
      | PStr s => if bool_decide (s ∈ vs) then Some (PStr s) else None
      | _ => None
      end
  end.

(** [le=b] keeps a float [x] only when [x <= b], [ge=b] only when
    [b <= x].  A NaN compares with nothing, so it fails either bound. *)
Definition check_bounds (ge le : option spec_float) (v : pyval) : bool :=
  match v with
  | PFloat x =>
      match le with Some b => SFleb x b | None => true end
      && match ge with Some b => SFleb b x | None => true end
  | _ => true
  end.

Definition validate_field (f : field) (v : pyval) : option pyval :=
  w ← validate_type (f_type f) v;
  if check_bounds (f_ge f) (f_le f) w then Some w else None.

(** The value of field [f] in the instance: the validated input when the
    payload has the key, the default otherwise; [None] is a validation error
    (invalid value, or missing required field). *)
Definition field_result (p : gmap string pyval) (f : field) : option pyval :=
  match p !! f_name f with
  | Some v => validate_field f v
  | None => f_default f
  end.

Fixpoint validate_fields (sch : list field) (p : gmap string pyval)
  : list string * gmap string pyval :=
  match sch with
  | [] => ([], ∅)
  | f :: rest =>
      let '(errs, inst) := validate_fields rest p in
      match field_result p f with
      | Some w => (errs, <[f_name f := w]> inst)
      | None => (f_name f :: errs, inst)
      end
  end.

(** Construction of a model instance from keyword arguments or from a
    request body: the instance, or the names of all fields in error. *)
Definition validate (sch : list field) (p : gmap string pyval)
  : result (list string) (gmap string pyval) :=
  match validate_fields sch p with
  | ([], inst) => Ok inst
  | (errs, _) => Err errs
  end.

(** A payload is valid for a model when every declared field is in order:
    present with a value that passes the field's checks, or absent and
    optional.  Undeclared keys do not matter. *)
Definition field_ok (p : gmap string pyval) (f : field) : Prop :=
  match p !! f_name f with
  | Some v => is_Some (validate_field f v)
  | None => is_Some (f_default f)
  end.

#[global] Instance field_ok_dec p f : Decision (field_ok p f).
Proof. unfold field_ok. destruct (p !! f_name f); apply _. Defined.

Definition valid_payload (sch : list field) (p : gmap string pyval) : Prop :=
  Forall (field_ok p) sch.

End Validation.

(** The enumerated fields of a model, with their value sets. *)
Definition literal_fields (sch : list field) : list (string * list string) :=
  omap (λ f, match f_type f with
             | TLiteral vs => Some (f_name f, vs)
             | _ => None
             end) sch.

End Schemas.
Export Schemas.

(* ===================================================================== *)
(** ** main.py *)
(* ===================================================================== *)

Module Main.

Abbreviation document := (gmap string pyval).

(** Exceptions that reach the handlers.  [HTTPException] carries
    [detail=str(e)] of the exception [e] it was raised from; the text of
    [str(e)] is fixed by [e], so [e] itself is kept. *)
Inductive exn : Type :=
| NotConfigured
| ValidationError (fields : list string)
| HTTPException (status_code : Z) (cause : exn).

(** Modelled from the spec: [database.py] ([db], [create_document],
    [get_documents]) is imported by [main.py] but is not among the sources.
    The spec describes it as one collection per record kind, named by the
    lowercase kind name, holding documents in insertion order; an insert
    creates a new document and returns its generated identifier; documents
    whose schema defines creation/update timestamps get them from the
    server; a store that was never initialised makes reads and writes fail.
    [next_id] is the source of generated identifiers. *)
Record store : Type := MkStore {
  collections : gmap string (list (gmap string pyval));
  next_id : N
}.

Definition collection (st : store) (name : string) : list document :=
  default [] (collections st !! name).

(** Computations of a request: they read and write the global [db], which
    is [None] when no store is configured, and may raise. *)
Definition M (A : Type) : Type := option store → result exn A * option store.

Definition ret {A} (a : A) : M A := λ db, (Ok a, db).
Definition raise {A} (e : exn) : M A := λ db, (Err e, db).
Definition bind {A B} (k : A → M B) (c : M A) : M B :=
  λ db, match c db with
        | (Ok a, db') => k a db'
        | (Err e, db') => (Err e, db')
        end.
(** [try: c except Exception as e: h e] *)
Definition try_except {A} (c : M A) (h : exn → M A) : M A :=
  λ db, match c db with
        | (Ok a, db') => (Ok a, db')
        | (Err e, db') => h e db'
        end.

#[global] Instance M_ret : MRet M := @ret.
#[global] Instance M_bind : MBind M := @bind.

Definition doc_user_is (user_id : string) (d : document) : bool :=
  match d !! "user_id" with
  | Some (PStr s) => String.eqb s user_id
  | _ => false
  end.

(** Modelled from the spec: [get_documents(collection, {"user_id": user_id})],
    the documents of the collection owned by [user_id], in stored order.
    Every call in [main.py] passes this one-key filter. *)
Definition user_docs (st : store) (name : string) (user_id : string) : list document :=
  List.filter (doc_user_is user_id) (collection st name).

(** Modelled from the spec: a read fails when no store is configured, and
    leaves the store as it is. *)
Definition get_documents (name : string) (user_id : string) : M (list document) :=
  λ db, match db with
        | None => (Err NotConfigured, db)
        | Some st => (Ok (user_docs st name user_id), db)
        end.

(** Modelled from the spec: server-assigned timestamps, for the documents
    whose schema has the two timestamp fields. *)
Definition stamp (now : Z) (d : document) : document :=
  match d !! "created_at" with
  | Some _ => <["updated_at" := PDatetime now]> (<["created_at" := PDatetime now]> d)
  | None => d
  end.

(** Modelled from the spec: [create_document(collection, payload)] appends
    the instance's fields as a new document and returns its identifier. *)
Definition create_document (now : Z) (name : string) (data : document) : M N :=
  λ db, match db with
        | None => (Err NotConfigured, db)
        | Some st =>
            (Ok (next_id st),
             Some {| collections := <[name := (collection st name ++ [stamp now data])%list]> (collections st);
                     next_id := N.succ (next_id st) |})
        end.

(** Python's [l[-n:]] for [n > 0]. *)
Definition last_n {A} (n : nat) (l : list A) : list A := drop (length l - n) l.

Section Handlers.

Variable conv : conversions.
(** The clock: [today] is [datetime.now().strftime("%Y-%m-%d")], [now] the
    instant the store stamps documents with. *)
Variable today : string.
Variable now : Z.

(** Construction of a model instance; a failed validation raises. *)
Definition construct (sch : list field) (kwargs : document) : M document :=
  match validate conv sch kwargs with
  | Ok inst => ret inst
  | Err fields => raise (ValidationError fields)
  end.

Definition _insert (name : string) (payload : document) : M N :=
  try_except (create_document now name payload)
             (λ e, raise (HTTPException 500 e)).

(** [mood in ("stressed", "sad")]; [None] equals neither string. *)
Definition mood_in_stressed_sad (mood : option string) : bool :=
  match mood with
  | Some s => String.eqb s "stressed" || String.eqb s "sad"
  | None => false
  end.

(** Lines 209-217 of [generate_coach_plan]: the [focus] list. *)
Definition coach_focus (mood : option string) (habits tasks : list document) : list string :=
  let focus := [] in
  let focus := if mood_in_stressed_sad mood
               then (focus ++ ["short wins"; "breathing"; "walk"])%list else focus in
  let focus := if (5 <? length tasks)%nat then (focus ++ ["prioritize top 3"])%list else focus in
  let focus := if (length habits <? 3)%nat then (focus ++ ["add a keystone habit"])%list else focus in
  match focus with
  | [] => ["consistency"; "deep work"; "hydration"]
  | _ => focus
  end.

(** Lines 219-223: the [actions] list of dicts. *)
Definition coach_actions : list pyval :=
  [ PDict [("title", PStr "10-min warmup"); ("time", PStr "05:15")];
    PDict [("title", PStr "Deep work block"); ("time", PStr "06:00")];
    PDict [("title", PStr "Move + hydrate"); ("time", PStr "08:00")] ].

Definition generate_coach_plan (user_id : string) (mood : option string) : M N :=
  try_except
    (habits ← get_documents "habit" user_id;
     routines ← get_documents "routine" user_id;
     tasks ← get_documents "task" user_id;
     moods ← get_documents "mood" user_id;
     let recent_moods := last_n 7 moods in
     let focus := coach_focus mood habits tasks in
     let actions := coach_actions in
     plan ← construct CoachPlan
                  (<["user_id" := PStr user_id]>
                   (<["date" := PStr today]>
                    (<["summary" := PStr "Personalized plan generated."]>
                     (<["focus" := PList (PStr <$> focus)]>
                      (<["actions" := PList actions]> ∅)))));
     _insert "coachplan" plan)
    (λ e, raise (HTTPException 500 e)).

(** The plan a run of [generate_coach_plan] generates: the document it adds
    to the [coachplan] collection, when it returns without raising. *)
Definition generated_plan (user_id : string) (mood : option string)
    (db : option store) : option document :=
  match generate_coach_plan user_id mood db with
  | (Ok _, Some st') => last (collection st' "coachplan")
  | _ => None
  end.

End Handlers.

(** *** The focus rules in the words of the specification

    Three rules in fixed order, each contributing its tags or nothing; the
    fallback when none fires.  [mood_hint] and the two counts are all the
    rules look at. *)
Definition rule_mood (mood_hint : option string) : list string :=
  if bool_decide (mood_hint = Some "stressed" ∨ mood_hint = Some "sad")
  then ["short wins"; "breathing"; "walk"] else [].
Definition rule_tasks (task_count : nat) : list string :=
  if bool_decide (5 < task_count)%nat then ["prioritize top 3"] else [].
Definition rule_habits (habit_count : nat) : list string :=
  if bool_decide (habit_count < 3)%nat then ["add a keystone habit"] else [].
Definition fallback : list string := ["consistency"; "deep work"; "hydration"].

Definition focus_spec (mood_hint : option string) (habit_count task_count : nat)
  : list string :=
  let fired := (rule_mood mood_hint ++ rule_tasks task_count ++ rule_habits habit_count)%list in
  if bool_decide (fired = []) then fallback else fired.

(** *** Sample data for running the handler *)

Definition sample_doc (user_id title : string) : document :=
  <["title" := PStr title]> {["user_id" := PStr user_id]}.

Definition sample_mood (user_id date mood : string) : document :=
  <["mood" := PStr mood]> (<["date" := PStr date]> {["user_id" := PStr user_id]}).

Definition sample_store (habits tasks moods : list document) : store :=
  {| collections := <["habit" := habits]> (<["task" := tasks]> (<["mood" := moods]> ∅));
     next_id := 0 |}.

(** The store [st] with its [mood] collection replaced by [moods]. *)
Definition with_moods (st : store) (moods : list document) : store :=
  {| collections := <["mood" := moods]> (collections st); next_id := next_id st |}.

End Main.
Export Main.

(* ===================================================================== *)
(** ** schemas.py: what an instance looks like *)
(* ===================================================================== *)

Module Instances.

(** [v] is a value of the annotated type [t], as found in an instance. *)
Fixpoint has_type (t : ftype) (v : pyval) : bool :=
  match t with
  | TStr => match v with PStr _ => true | _ => false end
  | TInt => match v with PInt _ => true | _ => false end
  | TFloat => match v with PFloat _ => true | _ => false end
  | TBool => match v with PBool _ => true | _ => false end
  | TDict => match v with PDict _ => true | _ => false end
  | TDatetime => match v with PDatetime _ => true | _ => false end
  | TList t' => match v with PList l => forallb (has_type t') l | _ => false end
  | TOptional t' => match v with PNone => true | _ => has_type t' v end
  | TLiteral vs => match v with PStr s => bool_decide (s ∈ vs) | _ => false end
  end.

(** Class names of the models, and the name [export_schemas] lists each
    under: [m.__name__.lower()].  The names are ASCII, where [str.lower]
    turns [A]..[Z] into [a]..[z] and keeps every other character. *)
Definition class_name (k : kind) : string :=
  match k with
  | KProfile => "Profile"
  | KPreferences => "Preferences"
  | KHabit => "Habit"
  | KRoutine => "Routine"
  | KTask => "Task"
  | KJournalEntry => "JournalEntry"
  | KMood => "Mood"
  | KMoneyRecord => "MoneyRecord"
  | KSavingsGoal => "SavingsGoal"
  | KFitnessMetric => "FitnessMetric"
  | KChallenge => "Challenge"
  | KCoachPlan => "CoachPlan"
  end.

Definition ascii_lower (a : ascii) : ascii :=
  let n := nat_of_ascii a in
  if (65 <=? n)%nat && (n <=? 90)%nat then ascii_of_nat (n + 32) else a.

Fixpoint str_lower (s : string) : string :=
  match s with
  | EmptyString => EmptyString
  | String a rest => String (ascii_lower a) (str_lower rest)
  end.

Definition schema_name (k : kind) : string := str_lower (class_name k).

End Instances.
Export Instances.

(* ===================================================================== *)
(** ** main.py: the create and list endpoints *)
(* ===================================================================== *)

Module Endpoints.

Section Endpoints.

Variable conv : conversions.
Variable now : Z.

(** A POST handler whose parameter is annotated with a model: the request
    body is validated against the model and the handler runs on the
    instance; a rejected body raises before the handler's body runs. *)
Definition with_body (sch : list field) (handler : document → M N) (body : document) : M N :=
  inst ← construct conv sch body; handler inst.

Definition create_profile : document → M N :=
  with_body Profile (λ profile, _insert now "profile" profile).
Definition create_preferences : document → M N :=
  with_body Preferences (λ prefs, _insert now "preferences" prefs).
Definition create_habit : document → M N :=
  with_body Habit (λ habit, _insert now "habit" habit).
Definition create_routine : document → M N :=
  with_body Routine (λ routine, _insert now "routine" routine).
Definition create_task : document → M N :=
  with_body Task (λ task, _insert now "task" task).
Definition create_journal : document → M N :=
  with_body JournalEntry (λ entry, _insert now "journalentry" entry).
Definition create_mood : document → M N :=
  with_body Mood (λ mood, _insert now "mood" mood).
Definition create_money : document → M N :=
  with_body MoneyRecord (λ record, _insert now "moneyrecord" record).
Definition create_goal : document → M N :=
  with_body SavingsGoal (λ goal, _insert now "savingsgoal" goal).
Definition create_fitness : document → M N :=
  with_body FitnessMetric (λ metric, _insert now "fitnessmetric" metric).

(** The body shared by the GET handlers:
    [try: docs = get_documents(name, {"user_id": user_id}); return docs
     except Exception as e: raise HTTPException(500, str(e))]. *)
Definition list_docs (name : string) (user_id : string) : M (list document) :=
  try_except (docs ← get_documents name user_id; mret docs)
             (λ e, raise (HTTPException 500 e)).

Definition list_habits : string → M (list document) := list_docs "habit".
Definition list_routines : string → M (list document) := list_docs "routine".
Definition list_tasks : string → M (list document) := list_docs "task".
Definition list_journal : string → M (list document) := list_docs "journalentry".
Definition list_moods : string → M (list document) := list_docs "mood".
Definition list_money : string → M (list document) := list_docs "moneyrecord".
Definition list_goals : string → M (list document) := list_docs "savingsgoal".
Definition list_fitness : string → M (list document) := list_docs "fitnessmetric".

End Endpoints.

(** The paths that take a POST of a record, the model each validates, and
    the handlers routed to them. *)
Inductive path : Type :=
| P_profile | P_preferences | P_habit | P_routine | P_task
| P_journal | P_mood | P_money | P_savings_goal | P_fitness.

Definition model_of (r : path) : kind :=
  match r with
  | P_profile => KProfile
  | P_preferences => KPreferences
  | P_habit => KHabit
  | P_routine => KRoutine
  | P_task => KTask
  | P_journal => KJournalEntry
  | P_mood => KMood
  | P_money => KMoneyRecord
  | P_savings_goal => KSavingsGoal
  | P_fitness => KFitnessMetric
  end.

Definition post (conv : conversions) (now : Z) (r : path) : document → M N :=
  match r with
  | P_profile => create_profile conv now
  | P_preferences => create_preferences conv now
  | P_habit => create_habit conv now
  | P_routine => create_routine conv now
  | P_task => create_task conv now
  | P_journal => create_journal conv now
  | P_mood => create_mood conv now
  | P_money => create_money conv now
  | P_savings_goal => create_goal conv now
  | P_fitness => create_fitness conv now
  end.

(** [GET] on the same path, where the application defines one: there is
    none for [/profile] and [/preferences]. *)
Definition get (r : path) : option (string → M (list document)) :=
  match r with
  | P_profile | P_preferences => None
  | P_habit => Some list_habits
  | P_routine => Some list_routines
  | P_task => Some list_tasks
  | P_journal => Some list_journal
  | P_mood => Some list_moods
  | P_money => Some list_money
  | P_savings_goal => Some list_goals
  | P_fitness => Some list_fitness
  end.


End Endpoints.
Export Endpoints.

(* ===================================================================== *)
(** ** main.py: the diagnostic endpoint *)
(* ===================================================================== *)

Module Diagnostics.

(** Python strings are kept as their UTF-8 bytes.  A character starts at
    every byte that is not a continuation byte (10xxxxxx). *)
Definition is_continuation (a : ascii) : bool :=
  let n := nat_of_ascii a in (128 <=? n)%nat && (n <? 192)%nat.

Fixpoint char_count (s : string) : nat :=
  match s with
  | EmptyString => 0
  | String a rest => (if is_continuation a then 0 else 1) + char_count rest
  end.

(** [s[:n]]: the first [n] characters of [s], all of [s] when it has fewer. *)
Fixpoint take_chars (n : nat) (s : string) : string :=
  match s with
  | EmptyString => EmptyString
  | String a rest =>
      if is_continuation a then String a (take_chars n rest)
      else match n with
           | O => EmptyString
           | S n' => String a (take_chars n' rest)
           end
  end.

Section Diagnostics.

(** [db.list_collection_names()] of the database driver: the names, or an
    exception [e] given by its message [str(e)]. *)
Variable list_collection_names : store → result string (list string).
(** [os.getenv]. *)
Variable getenv : string → option string.

(** Truth value of [os.getenv(name)]: unset and empty are both false. *)
Definition env_set (name : string) : bool :=
  match getenv name with
  | Some (String _ _) => true
  | _ => false
  end.

Definition test_database (db : option store) : gmap string pyval :=
  let response : gmap string pyval :=
    <["backend" := PStr "✅ Running"]>
    (<["database" := PStr "❌ Not Available"]>
     (<["database_url" := PNone]>
      (<["database_name" := PNone]>
       (<["connection_status" := PStr "Not Connected"]>
        (<["collections" := PList []]> ∅))))) in
  match db with
  | None => response
  | Some st =>
      let response := <["database" := PStr "✅ Connected & Working"]> response in
      let response :=
        <["database_url" :=
            PStr (if env_set "DATABASE_URL" then "✅ Set" else "❌ Not Set")]> response in
      let response :=
        <["database_name" :=
            PStr (if env_set "DATABASE_NAME" then "✅ Set" else "❌ Not Set")]> response in
      let response := <["connection_status" := PStr "Connected"]> response in
      match list_collection_names st with
      | Ok names => <["collections" := PList (PStr <$> names)]> response
      | Err msg => <["database" := PStr ("❌ Error: " ++ take_chars 80 msg)]> response
      end
  end.

End Diagnostics.

End Diagnostics.
Export Diagnostics.

(* ===================================================================== *)
(** ** Validation: general facts *)
(* ===================================================================== *)

Section ValidationFacts.

Variable conv : conversions.
Implicit Types (sch : list field) (p : gmap string pyval) (f : field).

(** The error list names exactly the fields without a result. *)
Lemma validate_fields_errs sch p (s : string) :
  s ∈ (validate_fields conv sch p).1 ↔
  ∃ f, f ∈ sch ∧ f_name f = s ∧ field_result conv p f = None.
Proof.
  induction sch as [|g rest IH]; simpl.
  - split; [intros H; inversion H | intros (f & H & _); inversion H].
  - destruct (validate_fields conv rest p) as [errs inst] eqn:E; simpl in IH.
    destruct (field_result conv p g) as [w|] eqn:Eg; simpl.
    + rewrite IH. split.
      * intros (f & Hf & Hn & Hr). exists f. split; [by right | done].
      * intros (f & Hf & Hn & Hr). apply elem_of_cons in Hf as [->|Hf]; [congruence|].
        by exists f.
    + rewrite elem_of_cons, IH. split.
      * intros [->|(f & Hf & Hn & Hr)]; [exists g; split; [by left | done]|].
        exists f. split; [by right | done].
      * intros (f & Hf & Hn & Hr). apply elem_of_cons in Hf as [->|Hf]; [by left|].
        right. by exists f.
Qed.

(** The instance holds, under each declared name, that field's result. *)
Lemma validate_fields_lookup sch p f w :
  NoDup (f_name <$> sch) → f ∈ sch → field_result conv p f = Some w →
  (validate_fields conv sch p).2 !! f_name f = Some w.
Proof.
  induction sch as [|g rest IH]; simpl; intros Hnd Hin Hr; [inversion Hin|].
  apply NoDup_cons in Hnd as [Hg Hnd].
  destruct (validate_fields conv rest p) as [errs inst] eqn:E; simpl in IH.
  apply elem_of_cons in Hin as [->|Hin].
  - rewrite Hr. simpl. apply lookup_insert_eq.
  - assert (f_name g ≠ f_name f) as Hne.
    { intros Heq. apply Hg. rewrite Heq. by apply list_elem_of_fmap_2. }
    destruct (field_result conv p g); simpl; [rewrite lookup_insert_ne by done|]; auto.
Qed.

Lemma validate_Ok sch p inst :
  validate conv sch p = Ok inst ↔
  (validate_fields conv sch p).1 = [] ∧ inst = (validate_fields conv sch p).2.
Proof.
  unfold validate. destruct (validate_fields conv sch p) as [[|e errs] i]; simpl.
  - split; [intros [= <-]; done | intros [_ ->]; done].
  - split; [done | intros [? _]; done].
Qed.

Lemma validate_Err sch p errs :
  validate conv sch p = Err errs ↔
  errs ≠ [] ∧ errs = (validate_fields conv sch p).1.
Proof.
  unfold validate. destruct (validate_fields conv sch p) as [[|e l] i]; simpl.
  - split; [done | intros [H ->]; done].
  - split; [intros [= <-]; done | intros [_ ->]; done].
Qed.

(** A field in error makes the whole payload rejected, and is reported. *)
Lemma validate_rejects sch p f :
  f ∈ sch → field_result conv p f = None →
  ∃ errs, validate conv sch p = Err errs ∧ f_name f ∈ errs.
Proof.
  intros Hin Hr.
  assert (f_name f ∈ (validate_fields conv sch p).1) as He.
  { apply validate_fields_errs. by exists f. }
  exists (validate_fields conv sch p).1. split; [|done].
  apply validate_Err. split; [|done].
  intros Hnil. rewrite Hnil in He. inversion He.
Qed.


Lemma validate_Ok_lookup sch p inst f :
  NoDup (f_name <$> sch) → validate conv sch p = Ok inst → f ∈ sch →
  inst !! f_name f = field_result conv p f.
Proof.
  intros Hnd Hok Hin. apply validate_Ok in Hok as [Herrs ->].
  destruct (field_result conv p f) as [w|] eqn:Hr.
  - by apply validate_fields_lookup.
  - assert (f_name f ∈ (validate_fields conv sch p).1) as He.
    { apply validate_fields_errs. by exists f. }
    rewrite Herrs in He. inversion He.
Qed.

(** Field names are declared once in every model. *)
Lemma schema_names_NoDup (k : kind) : NoDup (f_name <$> schema k).
Proof. destruct k; apply (bool_decide_unpack _); vm_compute; reflexivity. Qed.

(** A list of strings is a valid [List[str]] and is kept as it is. *)
Lemma validate_str_list (l : list string) :
  validate_type conv (TList TStr) (PList (PStr <$> l)) = Some (PList (PStr <$> l)).
Proof.
  assert (mapM (validate_type conv TStr) (PStr <$> l) = Some (PStr <$> l)) as H.
  { apply mapM_Some. induction l as [|s l IH]; constructor; done. }
  simpl. simpl in H. by rewrite H.
Qed.

End ValidationFacts.

Section ValidationByName.

Variable conv : conversions.

(** With names declared once, a name determines its field. *)
Lemma field_by_name (sch : list field) (f g : field) :
  NoDup (f_name <$> sch) → f ∈ sch → g ∈ sch → f_name f = f_name g → f = g.
Proof.
  induction sch as [|h rest IH]; simpl; intros Hnd Hf Hg Heq; [inversion Hf|].
  apply NoDup_cons in Hnd as [Hh Hnd].
  apply elem_of_cons in Hf as [->|Hf]; apply elem_of_cons in Hg as [->|Hg]; auto.
  - exfalso. apply Hh. rewrite Heq. by apply list_elem_of_fmap_2.
  - exfalso. apply Hh. rewrite <- Heq. by apply list_elem_of_fmap_2.
Qed.

(** A field with a result is never among the reported errors. *)
Lemma validate_not_reported (sch : list field) (p : gmap string pyval) f errs :
  NoDup (f_name <$> sch) → f ∈ sch → is_Some (field_result conv p f) →
  validate conv sch p = Err errs → f_name f ∉ errs.
Proof.
  intros Hnd Hf [w Hw] Herr Hin. apply validate_Err in Herr as [_ ->].
  apply validate_fields_errs in Hin as (g & Hg & Hn & Hr).
  assert (g = f) as -> by (by apply (field_by_name sch)). congruence.
Qed.

(** A valid payload is accepted; its instance is the one assembled field by
    field. *)
Lemma valid_payload_Ok (sch : list field) (p : gmap string pyval) :
  valid_payload conv sch p → validate conv sch p = Ok (validate_fields conv sch p).2.
Proof.
  intros Hvalid. apply validate_Ok. split; [|done].
  destruct (validate_fields conv sch p).1 as [|s errs] eqn:E; [done|].
  assert (s ∈ (validate_fields conv sch p).1) as Hs by (rewrite E; by left).
  apply validate_fields_errs in Hs as (f & Hf & _ & Hr).
  eapply Forall_forall in Hvalid; [|exact Hf].
  unfold field_ok in Hvalid. unfold field_result in Hr.
  destruct (p !! f_name f); rewrite Hr in Hvalid; by destruct Hvalid.
Qed.

End ValidationByName.

(** Float order: [a < b] excludes [b <= a]. *)
Lemma SFltb_SFleb_false (a b : spec_float) : SFltb a b = true → SFleb b a = false.
Proof.
  unfold SFltb, SFleb, SFcompare.
  destruct a as [sa|sa| |sa ma ea], b as [sb|sb| |sb mb eb];
    try destruct sa; try destruct sb; simpl; try done.
  - rewrite (Z.compare_antisym ea eb).
    destruct (ea ?= eb)%Z; simpl; try done.
    pose proof (Pos.compare_cont_antisym mb ma Eq) as H. simpl in H.
    rewrite <- H. destruct (Pos.compare_cont Eq mb ma); simpl; done.
  - rewrite (Z.compare_antisym ea eb).
    destruct (ea ?= eb)%Z; simpl; try done.
    pose proof (Pos.compare_cont_antisym mb ma Eq) as H. simpl in H.
    rewrite <- H. destruct (Pos.compare_cont Eq mb ma); simpl; done.
Qed.

(* ===================================================================== *)
(** ** Claims about schemas.py *)
(* ===================================================================== *)

(** The two bounded fields of [Preferences] validate a float [x] to itself
    exactly when [0 <= x <= 1]. *)
Lemma unit_interval_field_result conv (name : string) (d : pyval) p v :
  p !! name = Some v →
  field_result conv p (opt_range name TFloat d f_zero f_one) =
    w ← validate_type conv TFloat v;
    if check_bounds (Some f_zero) (Some f_one) w then Some w else None.
Proof. intros Hp. unfold field_result. simpl. by rewrite Hp. Qed.

Lemma bounded_field_in_Preferences (name : string) :
  name = "glow_intensity" ∨ name = "card_opacity" →
  ∃ d, opt_range name TFloat d f_zero f_one ∈ Preferences.
Proof.
  intros [-> | ->]; eexists; apply list_elem_of_In; simpl; eauto 10.
Qed.

(** A value validated as a float is a float. *)
Lemma validate_type_TFloat conv (v w : pyval) :
  validate_type conv TFloat v = Some w → ∃ x, w = PFloat x.
Proof.
  simpl. destruct v; simpl;
    try (destruct (to_float conv _); simpl; intros [= <-]; eauto; fail);
    [destruct (float_of_int z); simpl; intros [= <-]; eauto | intros [= <-]; eauto].
Qed.

(** C3. For [glow_intensity] and [card_opacity] of a Preferences payload,
    a value is accepted only as a float of the closed interval [0,1]: a
    payload whose value for the field does not validate to a float [x] with
    [0 <= x <= 1] is rejected, with the field reported.  So every value
    strictly below 0 or strictly above 1 is rejected, in whatever form the
    number arrives (float, integer, or anything the validator converts to a
    float), and so is a NaN.  The closed interval is accepted: the field is
    never reported for a float [x] with [0 <= x <= 1] nor for the integers
    0 and 1, and a payload with just [user_id] and the field at a boundary
    value, 0 or 1, validates to an instance holding that boundary value. *)
Theorem preferences_unit_interval conv (name : string) :
  name = "glow_intensity" ∨ name = "card_opacity" →
  (∀ (p : gmap string pyval) v,
      p !! name = Some v →
      ¬ (∃ x, validate_type conv TFloat v = Some (PFloat x)
              ∧ SFleb f_zero x = true ∧ SFleb x f_one = true) →
      ∃ errs, validate conv Preferences p = Err errs ∧ name ∈ errs)
  ∧ (∀ (p : gmap string pyval) v x,
      p !! name = Some v →
      validate_type conv TFloat v = Some (PFloat x) →
      SFltb x f_zero = true ∨ SFltb f_one x = true ∨ x = S754_nan →
      ∃ errs, validate conv Preferences p = Err errs ∧ name ∈ errs)
  ∧ (∀ (p : gmap string pyval) v errs,
      p !! name = Some v →
      v = PInt 0 ∨ v = PInt 1
      ∨ (∃ x, v = PFloat x ∧ SFleb f_zero x = true ∧ SFleb x f_one = true) →
      validate conv Preferences p = Err errs → name ∉ errs)
  ∧ (∀ (user_id : string) v,
      v = PFloat f_zero ∨ v = PFloat f_one ∨ v = PInt 0 ∨ v = PInt 1 →
      ∃ inst x, validate conv Preferences
                  (<[name := v]> {["user_id" := PStr user_id]}) = Ok inst
                ∧ inst !! name = Some (PFloat x)
                ∧ (x = f_zero ∨ x = f_one)).
Proof.
  intros Hname. destruct (bounded_field_in_Preferences name Hname) as [d Hin].
  assert (∀ (p : gmap string pyval) v,
            p !! name = Some v →
            ¬ (∃ x, validate_type conv TFloat v = Some (PFloat x)
                    ∧ SFleb f_zero x = true ∧ SFleb x f_one = true) →
            ∃ errs, validate conv Preferences p = Err errs ∧ name ∈ errs) as Hreject.
  { intros p v Hp Hout.
    apply (validate_rejects conv Preferences p _ Hin).
    rewrite (unit_interval_field_result conv name d p v Hp).
    destruct (validate_type conv TFloat v) as [w|] eqn:Hv; [|done].
    destruct (validate_type_TFloat conv v w Hv) as [x ->].
    cbn [mbind option_bind check_bounds].
    destruct (SFleb x f_one) eqn:E1; [|done].
    destruct (SFleb f_zero x) eqn:E0; [|done].
    exfalso. apply Hout. by exists x. }
  split; [exact Hreject|]. split; [|split].
  - intros p v x Hp Hv Hout. apply (Hreject p v Hp).
    intros (x' & Hv' & H0 & H1). rewrite Hv in Hv'. injection Hv' as <-.
    destruct Hout as [H | [H | ->]].
    + apply SFltb_SFleb_false in H. congruence.
    + apply SFltb_SFleb_false in H. congruence.
    + discriminate H0.
  - intros p v errs Hp Hv Herr.
    apply (validate_not_reported conv Preferences p _ errs (schema_names_NoDup KPreferences) Hin);
      [|done].
    rewrite (unit_interval_field_result conv name d p v Hp).
    destruct Hv as [-> | [-> | (x & -> & H0 & H1)]]; [vm_compute; eauto..|].
    cbn [validate_type mbind option_bind check_bounds].
    rewrite H0, H1. simpl. eauto.
  - intros user_id v Hv.
    set (p := <[name := v]> {["user_id" := PStr user_id]} : gmap string pyval).
    assert (valid_payload conv Preferences p) as Hvalid.
    { subst p. destruct Hname as [-> | ->]; destruct Hv as [-> | [-> | [-> | ->]]];
        apply (bool_decide_unpack _); vm_compute; reflexivity. }
    assert (∃ x, field_result conv p (opt_range name TFloat d f_zero f_one) = Some (PFloat x)
                 ∧ (x = f_zero ∨ x = f_one)) as (x & Hx & Hb).
    { rewrite (unit_interval_field_result conv name d p v) by (subst p; apply lookup_insert_eq).
      destruct Hv as [-> | [-> | [-> | ->]]];
        [exists f_zero | exists f_one | exists f_zero | exists f_one];
        (split; [reflexivity | auto]). }
    exists (validate_fields conv Preferences p).2, x.
    pose proof (valid_payload_Ok conv Preferences p Hvalid) as Hok.
    split; [exact Hok|]. split; [|exact Hb].
    rewrite <- Hx.
    apply (validate_Ok_lookup conv Preferences p _ _ (schema_names_NoDup KPreferences) Hok Hin).
Qed.

Lemma preferences_unit_interval_witness :
  (∃ errs, validate strict Preferences
             (<["glow_intensity" := PInt 2]> {["user_id" := PStr "u1"]}) = Err errs
           ∧ "glow_intensity" ∈ errs)
  ∧ (∃ errs, validate strict Preferences
               (<["card_opacity" := PFloat S754_nan]> {["user_id" := PStr "u1"]}) = Err errs
             ∧ "card_opacity" ∈ errs)
  ∧ (∃ inst x, validate strict Preferences
                 (<["card_opacity" := PFloat f_one]> {["user_id" := PStr "u1"]}) = Ok inst
               ∧ inst !! "card_opacity" = Some (PFloat x)
               ∧ (x = f_zero ∨ x = f_one)).
Proof.
  split; [|split].
  - apply (proj1 (proj2 (preferences_unit_interval strict "glow_intensity"
                           (or_introl eq_refl)))
             (<["glow_intensity" := PInt 2]> {["user_id" := PStr "u1"]}) (PInt 2)
             (S754_finite false 4503599627370496 (-51)));
      [reflexivity | reflexivity | right; left; reflexivity].
  - apply (proj1 (preferences_unit_interval strict "card_opacity" (or_intror eq_refl))
             (<["card_opacity" := PFloat S754_nan]> {["user_id" := PStr "u1"]})
             (PFloat S754_nan)); [reflexivity|].
    intros (x & Hx & H0 & _). injection Hx as <-. discriminate H0.
  - apply (proj2 (proj2 (proj2 (preferences_unit_interval strict "card_opacity"
                                  (or_intror eq_refl))))
             "u1" (PFloat f_one)).
    right; left; reflexivity.
Defined.




(** A [Literal] field takes only a string that is one of its values. *)
Lemma validate_literal_None conv (f : field) (vs : list string) (v : pyval) :
  f_type f = TLiteral vs → (∀ s, v = PStr s → s ∉ vs) → validate_field conv f v = None.
Proof.
  intros Ht Hv. unfold validate_field. rewrite Ht.
  destruct v as [| | | |s| | |]; simpl; try done.
  rewrite bool_decide_eq_false_2; [done | by apply Hv].
Qed.

(** C5. The enumerated fields are [age_group], [period], [status],
    [template], [mood], [type] and [category]; a payload whose value for
    such a field is not one of the strings of the field's value set is
    rejected, with the field reported.  Membership is equality of strings,
    so case matters: a Mood with [mood = "Stressed"] is rejected, the same
    payload with ["stressed"] is accepted. *)
Theorem enum_fields_checked conv :
  (∀ (k : kind) f vs (p : gmap string pyval) v,
      f ∈ schema k → f_type f = TLiteral vs →
      p !! f_name f = Some v → (∀ s, v = PStr s → s ∉ vs) →
      ∃ errs, validate conv (schema k) p = Err errs ∧ f_name f ∈ errs)
  ∧ (λ k, (k, literal_fields (schema k))) <$> models =
      [ (KProfile, [("age_group", ["teen"; "young_adult"; "adult"; "senior"])]);
        (KPreferences, []);
        (KHabit, []);
        (KRoutine, [("period", ["morning"; "afternoon"; "night"])]);
        (KTask, [("status", ["todo"; "in_progress"; "done"])]);
        (KJournalEntry, [("template", ["gratitude"; "reflection"; "ideas"; "free"])]);
        (KMood, [("mood", ["ecstatic"; "happy"; "calm"; "neutral"; "stressed"; "sad"])]);
        (KMoneyRecord, [("type", ["income"; "expense"; "saving"])]);
        (KSavingsGoal, []);
        (KFitnessMetric, []);
        (KChallenge, [("category", ["discipline"; "glowup"; "money"])]);
        (KCoachPlan, []) ]
  ∧ (∀ user_id date : string,
      validate conv Mood
        (<["mood" := PStr "Stressed"]>
           (<["date" := PStr date]> {["user_id" := PStr user_id]})) = Err ["mood"]
      ∧ is_ok (validate conv Mood
                 (<["mood" := PStr "stressed"]>
                    (<["date" := PStr date]> {["user_id" := PStr user_id]}))) = true).
Proof.
  split; [|split].
  - intros k f vs p v Hf Ht Hp Hv.
    apply (validate_rejects conv (schema k) p f Hf).
    unfold field_result. rewrite Hp. by apply (validate_literal_None conv f vs).
  - reflexivity.
  - intros user_id date. split; vm_compute; reflexivity.
Qed.

Lemma enum_fields_checked_witness :
  ∃ errs, validate strict Task
            (<["status" := PStr "DONE"]>
               (<["title" := PStr "Write report"]> {["user_id" := PStr "u1"]})) = Err errs
          ∧ "status" ∈ errs.
Proof.
  apply (proj1 (enum_fields_checked strict) KTask
           (opt "status" (TLiteral ["todo"; "in_progress"; "done"]) (PStr "todo"))
           ["todo"; "in_progress"; "done"]
           (<["status" := PStr "DONE"]>
              (<["title" := PStr "Write report"]> {["user_id" := PStr "u1"]}))
           (PStr "DONE")).
  - apply list_elem_of_In. simpl. tauto.
  - reflexivity.
  - reflexivity.
  - intros s [= <-]. apply (bool_decide_unpack _). vm_compute. reflexivity.
Defined.

Lemma user_id_declared (k : kind) :
  k ≠ KChallenge → req "user_id" TStr ∈ schema k.
Proof. intros Hk. destruct k; try done; apply list_elem_of_In; simpl; tauto. Qed.

(** C6, as stated, fails: [user_id] is annotated [str] with no length
    constraint, so a Profile whose [user_id] is the empty string is accepted
    as it is; and Challenge declares [user_id] optional, so a Challenge
    without it is accepted too.  Hence not every payload with an empty
    [user_id] is rejected. *)
Lemma user_id_empty_accepted :
  (∃ inst, validate strict Profile
             (<["age_group" := PStr "adult"]>
                (<["name" := PStr "Ann"]> {["user_id" := PStr ""]})) = Ok inst
           ∧ inst !! "user_id" = Some (PStr ""))
  ∧ is_ok (validate strict Challenge
             (<["description" := PStr "Build momentum."]>
                (<["category" := PStr "discipline"]>
                   (<["days" := PInt 7]>
                      (<["title" := PStr "7 Day Discipline"]>
                         {["slug" := PStr "discipline-7"]}))))) = true
  ∧ ¬ (∀ (k : kind) (p : gmap string pyval),
          p !! "user_id" = Some (PStr "") →
          ∃ errs, validate strict (schema k) p = Err errs).
Proof.
  set (p := <["age_group" := PStr "adult"]>
              (<["name" := PStr "Ann"]> {["user_id" := PStr ""]}) : gmap string pyval).
  assert (validate strict Profile p = Ok (validate_fields strict Profile p).2) as Hok.
  { apply valid_payload_Ok. apply (bool_decide_unpack _). vm_compute. reflexivity. }
  split; [|split].
  - exists (validate_fields strict Profile p).2. split; [exact Hok|].
    assert (req "user_id" TStr ∈ schema KProfile) as Hin
      by (apply list_elem_of_In; simpl; tauto).
    pose proof (validate_Ok_lookup strict (schema KProfile) p _ _
                  (schema_names_NoDup KProfile) Hok Hin) as Hl.
    transitivity (field_result strict p (req "user_id" TStr)); [exact Hl | reflexivity].
  - vm_compute. reflexivity.
  - intros H. destruct (H KProfile p) as [errs Herr]; [reflexivity|].
    simpl in Herr. rewrite Hok in Herr. discriminate Herr.
Qed.

(** C6, amended. For every record kind other than Challenge, [user_id] is
    required and must be a string: a payload without it, or with a value
    that is not a string, is rejected with [user_id] reported.  Any string,
    the empty one included, passes: [user_id] is then never reported, and an
    accepted payload yields an instance with that same string.  Challenge
    declares [user_id] optional, with default [None]. *)
Theorem user_id_required_string conv (k : kind) :
  k ≠ KChallenge →
  (∀ p : gmap string pyval,
      p !! "user_id" = None →
      ∃ errs, validate conv (schema k) p = Err errs ∧ "user_id" ∈ errs)
  ∧ (∀ (p : gmap string pyval) v,
      p !! "user_id" = Some v → (∀ s, v ≠ PStr s) →
      ∃ errs, validate conv (schema k) p = Err errs ∧ "user_id" ∈ errs)
  ∧ (∀ (p : gmap string pyval) (s : string) errs,
      p !! "user_id" = Some (PStr s) →
      validate conv (schema k) p = Err errs → "user_id" ∉ errs)
  ∧ (∀ (p : gmap string pyval) (s : string) inst,
      p !! "user_id" = Some (PStr s) →
      validate conv (schema k) p = Ok inst → inst !! "user_id" = Some (PStr s))
  ∧ (∀ (p : gmap string pyval) inst,
      p !! "user_id" = None →
      validate conv Challenge p = Ok inst → inst !! "user_id" = Some PNone).
Proof.
  intros Hk. pose proof (user_id_declared k Hk) as Hin.
  split; [|split; [|split; [|split]]].
  - intros p Hp. apply (validate_rejects conv (schema k) p _ Hin).
    unfold field_result. simpl. by rewrite Hp.
  - intros p v Hp Hv. apply (validate_rejects conv (schema k) p _ Hin).
    unfold field_result. simpl. rewrite Hp.
    destruct v as [| | | |s| | |]; try done. by destruct (Hv s).
  - intros p s errs Hp Herr.
    apply (validate_not_reported conv (schema k) p _ errs (schema_names_NoDup k) Hin);
      [|done].
    unfold field_result. simpl. rewrite Hp. by eexists.
  - intros p s inst Hp Hok.
    pose proof (validate_Ok_lookup conv (schema k) p inst _ (schema_names_NoDup k) Hok Hin)
      as Hl.
    unfold field_result in Hl. simpl in Hl. by rewrite Hp in Hl.
  - intros p inst Hp Hok.
    assert (opt "user_id" (TOptional TStr) PNone ∈ schema KChallenge) as Hc
      by (apply list_elem_of_In; simpl; tauto).
    pose proof (validate_Ok_lookup conv _ p inst _ (schema_names_NoDup KChallenge) Hok Hc)
      as Hl.
    unfold field_result in Hl. simpl in Hl. by rewrite Hp in Hl.
Qed.

Lemma user_id_required_string_witness :
  (∃ errs, validate strict Habit {["name" := PStr "Read"]} = Err errs ∧ "user_id" ∈ errs)
  ∧ (∃ errs, validate strict Habit
               (<["name" := PStr "Read"]> {["user_id" := PInt 7]}) = Err errs
             ∧ "user_id" ∈ errs).
Proof.
  assert (KHabit ≠ KChallenge) as Hk by discriminate.
  split.
  - apply (proj1 (user_id_required_string strict KHabit Hk)). reflexivity.
  - apply (proj1 (proj2 (user_id_required_string strict KHabit Hk))
             (<["name" := PStr "Read"]> {["user_id" := PInt 7]}) (PInt 7)).
    + reflexivity.
    + intros s. discriminate.
Defined.

(* ===================================================================== *)
(** ** The coach plan: what a run does *)
(* ===================================================================== *)

Section CoachPlanRun.

Variable conv : conversions.
Variables (today : string) (now : Z).

(** The keyword arguments of line 224 are a valid [CoachPlan]; the instance
    has exactly those five fields. *)
Lemma construct_CoachPlan (user_id : string) (focus : list string) (actions : list pyval) :
  validate_type conv (TList TDict) (PList actions) = Some (PList actions) →
  validate conv CoachPlan
    (<["user_id" := PStr user_id]>
     (<["date" := PStr today]>
      (<["summary" := PStr "Personalized plan generated."]>
       (<["focus" := PList (PStr <$> focus)]>
        (<["actions" := PList actions]> ∅)))))
  = Ok (<["user_id" := PStr user_id]>
        (<["date" := PStr today]>
         (<["summary" := PStr "Personalized plan generated."]>
          (<["focus" := PList (PStr <$> focus)]>
           (<["actions" := PList actions]> ∅))))).
Proof.
  intros Hact. unfold validate, CoachPlan. cbn [validate_fields].
  unfold field_result, validate_field. cbn [f_name f_type f_default f_ge f_le req opt].
  rewrite !lookup_insert_eq.
  repeat (rewrite lookup_insert_ne by done; rewrite ?lookup_insert_eq).
  rewrite Hact, (validate_str_list conv focus).

  reflexivity.
Qed.
(** With a configured store the handler returns the identifier of a new
    [coachplan] document; the document is the plan built from the clock, the
    caller's [user_id] and the focus computed from [mood] and the user's
    habits and tasks.  Nothing else in the store changes. *)
Lemma generate_coach_plan_run (user_id : string) (mood : option string) (st : store) :
  generate_coach_plan conv today now user_id mood (Some st) =
    (Ok (next_id st),
     Some {| collections :=
               <["coachplan" :=
                   (collection st "coachplan" ++
                    [ <["user_id" := PStr user_id]>
                      (<["date" := PStr today]>
                       (<["summary" := PStr "Personalized plan generated."]>
                        (<["focus" := PList (PStr <$> coach_focus mood
                                               (user_docs st "habit" user_id)
                                               (user_docs st "task" user_id))]>
                         (<["actions" := PList coach_actions]> ∅)))) ])%list]>
                 (collections st);
             next_id := N.succ (next_id st) |}).
Proof.
  unfold generate_coach_plan, try_except, mbind, M_bind, bind, get_documents, construct.
  rewrite construct_CoachPlan by reflexivity.
  unfold ret, _insert, try_except, create_document, stamp.
  repeat (rewrite lookup_insert_ne by done). rewrite lookup_empty.
  reflexivity.
Qed.

(** Without a store nothing is generated: the first read raises, and the
    handler answers with status 500. *)
Lemma generate_coach_plan_not_configured (user_id : string) (mood : option string) :
  generate_coach_plan conv today now user_id mood None =
    (Err (HTTPException 500 NotConfigured), None).
Proof. reflexivity. Qed.

Lemma generated_plan_run (user_id : string) (mood : option string) (st : store) :
  generated_plan conv today now user_id mood (Some st) =
    Some (<["user_id" := PStr user_id]>
          (<["date" := PStr today]>
           (<["summary" := PStr "Personalized plan generated."]>
            (<["focus" := PList (PStr <$> coach_focus mood
                                   (user_docs st "habit" user_id)
                                   (user_docs st "task" user_id))]>
             (<["actions" := PList coach_actions]> ∅))))).
Proof.
  unfold generated_plan. rewrite generate_coach_plan_run.
  unfold collection at 1. cbn [collections]. rewrite lookup_insert_eq. simpl.
  apply last_snoc.
Qed.

End CoachPlanRun.

(* ===================================================================== *)
(** ** Claims about the coach plan *)
(* ===================================================================== *)

Lemma mood_in_stressed_sad_spec (mood : option string) :
  mood_in_stressed_sad mood = bool_decide (mood = Some "stressed" ∨ mood = Some "sad").
Proof.
  symmetry. destruct mood as [s|]; unfold mood_in_stressed_sad.
  - destruct (String.eqb_spec s "stressed") as [->|H1].
    { apply bool_decide_eq_true_2. by left. }
    destruct (String.eqb_spec s "sad") as [->|H2].
    { apply bool_decide_eq_true_2. by right. }
    apply bool_decide_eq_false_2. intros [[=]|[=]]; congruence.
  - apply bool_decide_eq_false_2. intros [[=]|[=]].
Qed.

(** The code's [focus] is the specification's, and looks only at the mood
    hint and at the two counts. *)
Lemma coach_focus_spec (mood : option string) (habits tasks : list document) :
  coach_focus mood habits tasks = focus_spec mood (length habits) (length tasks).
Proof.
  unfold coach_focus, focus_spec, rule_mood, rule_tasks, rule_habits.
  rewrite mood_in_stressed_sad_spec.
  destruct (bool_decide (mood = Some "stressed" ∨ mood = Some "sad"));
    destruct (Nat.ltb_spec 5 (length tasks));
    destruct (Nat.ltb_spec (length habits) 3);
    first [ rewrite (bool_decide_eq_true_2 (5 < length tasks)%nat) by lia
          | rewrite (bool_decide_eq_false_2 (5 < length tasks)%nat) by lia ];
    first [ rewrite (bool_decide_eq_true_2 (length habits < 3)%nat) by lia
          | rewrite (bool_decide_eq_false_2 (length habits < 3)%nat) by lia ];
    reflexivity.
Qed.

(** C1. The focus list is the concatenation, in rule order and without
    deduplication, of the tags of the rules that fire (mood hint "stressed"
    or "sad"; more than 5 tasks; fewer than 3 habits), or the fallback when
    none fires; this is the focus of the plan a run generates.  With mood
    "sad", no habit and 6 tasks all three rules fire; with no mood, 3 habits
    and 5 tasks none does and the fallback is returned. *)
Theorem coach_focus_rules conv (today : string) (now : Z) :
  (∀ mood (habits tasks : list document),
      coach_focus mood habits tasks = focus_spec mood (length habits) (length tasks))
  ∧ (∀ user_id mood st,
      ∃ plan, generated_plan conv today now user_id mood (Some st) = Some plan
              ∧ plan !! "focus" =
                  Some (PList (PStr <$> focus_spec mood
                                 (length (user_docs st "habit" user_id))
                                 (length (user_docs st "task" user_id)))))
  ∧ (∀ user_id st,
      length (user_docs st "habit" user_id) = 0 →
      length (user_docs st "task" user_id) = 6 →
      ∃ plan, generated_plan conv today now user_id (Some "sad") (Some st) = Some plan
              ∧ plan !! "focus" =
                  Some (PList [PStr "short wins"; PStr "breathing"; PStr "walk";
                               PStr "prioritize top 3"; PStr "add a keystone habit"]))
  ∧ (∀ user_id st,
      length (user_docs st "habit" user_id) = 3 →
      length (user_docs st "task" user_id) = 5 →
      ∃ plan, generated_plan conv today now user_id None (Some st) = Some plan
              ∧ plan !! "focus" =
                  Some (PList [PStr "consistency"; PStr "deep work"; PStr "hydration"])).
Proof.
  split; [exact coach_focus_spec|]. split; [|split].
  - intros user_id mood st. eexists. split; [apply generated_plan_run|].
    simplify_map_eq. by rewrite coach_focus_spec.
  - intros user_id st Hh Ht. eexists. split; [apply generated_plan_run|].
    simplify_map_eq. by rewrite coach_focus_spec, Hh, Ht.
  - intros user_id st Hh Ht. eexists. split; [apply generated_plan_run|].
    simplify_map_eq. by rewrite coach_focus_spec, Hh, Ht.
Qed.

Lemma coach_focus_rules_witness :
  ∃ plan,
    generated_plan strict "2024-05-01" 0 "u1" (Some "sad")
      (Some (sample_store []
               [sample_doc "u1" "t1"; sample_doc "u1" "t2"; sample_doc "u1" "t3";
                sample_doc "u1" "t4"; sample_doc "u2" "other"; sample_doc "u1" "t5";
                sample_doc "u1" "t6"] [])) = Some plan
    ∧ plan !! "focus" =
        Some (PList [PStr "short wins"; PStr "breathing"; PStr "walk";
                     PStr "prioritize top 3"; PStr "add a keystone habit"]).
Proof.
  apply (proj1 (proj2 (proj2 (coach_focus_rules strict "2024-05-01" 0))) "u1").
  - vm_compute. reflexivity.
  - vm_compute. reflexivity.
Defined.

(** C2. Whatever the mood hint and whatever the store holds (habits,
    routines, tasks, moods), the generated plan has the fixed three-entry
    [actions] list and the fixed [summary]; without a store no plan is
    generated at all. *)
Theorem coach_plan_fixed_fields conv (today : string) (now : Z)
    (user_id : string) (mood : option string) :
  (∀ st, ∃ plan,
      generated_plan conv today now user_id mood (Some st) = Some plan
      ∧ plan !! "actions" =
          Some (PList [ PDict [("title", PStr "10-min warmup"); ("time", PStr "05:15")];
                        PDict [("title", PStr "Deep work block"); ("time", PStr "06:00")];
                        PDict [("title", PStr "Move + hydrate"); ("time", PStr "08:00")] ])
      ∧ plan !! "summary" = Some (PStr "Personalized plan generated."))
  ∧ generated_plan conv today now user_id mood None = None.
Proof.
  split; [|reflexivity].
  intros st. eexists. split; [apply generated_plan_run|].
  split; simplify_map_eq; reflexivity.
Qed.

Lemma user_docs_with_moods (st : store) (moods : list document) (name user_id : string) :
  name ≠ "mood" → user_docs (with_moods st moods) name user_id = user_docs st name user_id.
Proof.
  intros Hne. unfold user_docs, collection, with_moods. cbn [collections].
  by rewrite lookup_insert_ne.
Qed.

(** C7. Replacing the stored Mood records by any others, all else equal
    (mood hint, habits, tasks, clock), leaves the run's result and the
    generated plan unchanged, in particular its focus, actions and summary,
    although the records the handler reads as [recent_moods] do change. *)
Theorem recent_moods_unused conv (today : string) (now : Z)
    (user_id : string) (mood : option string) (st : store) (moods : list document) :
  ∃ plan,
    generated_plan conv today now user_id mood (Some st) = Some plan
    ∧ generated_plan conv today now user_id mood (Some (with_moods st moods)) = Some plan
    ∧ fst (generate_coach_plan conv today now user_id mood (Some (with_moods st moods)))
      = fst (generate_coach_plan conv today now user_id mood (Some st))
    ∧ last_n 7 (user_docs (with_moods st moods) "mood" user_id)
      = last_n 7 (List.filter (doc_user_is user_id) moods).
Proof.
  eexists. split; [apply generated_plan_run|]. split; [|split].
  - rewrite generated_plan_run.
    by rewrite !user_docs_with_moods by done.
  - by rewrite !generate_coach_plan_run.
  - unfold user_docs, collection, with_moods. cbn [collections].
    by rewrite lookup_insert_eq.
Qed.

(** C8. Two runs with the same mood hint, the same number of habits, the
    same number of tasks and the same clock generate plans with the same
    focus, actions, summary and date, whatever else differs (the user, the
    documents themselves, the rest of the store). *)
Theorem coach_plan_deterministic conv (today : string) (now : Z) (mood : option string)
    (user_id1 user_id2 : string) (st1 st2 : store) :
  length (user_docs st1 "habit" user_id1) = length (user_docs st2 "habit" user_id2) →
  length (user_docs st1 "task" user_id1) = length (user_docs st2 "task" user_id2) →
  ∃ plan1 plan2,
    generated_plan conv today now user_id1 mood (Some st1) = Some plan1
    ∧ generated_plan conv today now user_id2 mood (Some st2) = Some plan2
    ∧ plan1 !! "focus" = plan2 !! "focus"
    ∧ plan1 !! "actions" = plan2 !! "actions"
    ∧ plan1 !! "summary" = plan2 !! "summary"
    ∧ plan1 !! "date" = plan2 !! "date".
Proof.
  intros Hh Ht. eexists. eexists.
  split; [apply generated_plan_run|]. split; [apply generated_plan_run|].
  simplify_map_eq. rewrite !coach_focus_spec, Hh, Ht. done.
Qed.

Lemma coach_plan_deterministic_witness :
  ∃ plan1 plan2,
    generated_plan strict "2024-05-01" 0 "u1" (Some "calm")
      (Some (sample_store [sample_doc "u1" "read"; sample_doc "u2" "run"]
                          [sample_doc "u1" "t1"] [])) = Some plan1
    ∧ generated_plan strict "2024-05-01" 0 "u2" (Some "calm")
        (Some (sample_store [sample_doc "u2" "swim"]
                            [sample_doc "u2" "t7"; sample_doc "u3" "t8"]
                            [sample_mood "u2" "2024-04-30" "sad"])) = Some plan2
    ∧ plan1 !! "focus" = plan2 !! "focus"
    ∧ plan1 !! "actions" = plan2 !! "actions"
    ∧ plan1 !! "summary" = plan2 !! "summary"
    ∧ plan1 !! "date" = plan2 !! "date".
Proof.
  apply (coach_plan_deterministic strict "2024-05-01" 0 (Some "calm") "u1" "u2").
  - vm_compute. reflexivity.
  - vm_compute. reflexivity.
Defined.

(** The eight lists the focus rules can produce. *)
Lemma focus_spec_cases (mood_hint : option string) (habit_count task_count : nat) :
  focus_spec mood_hint habit_count task_count ∈
    [ ["consistency"; "deep work"; "hydration"];
      ["short wins"; "breathing"; "walk"];
      ["prioritize top 3"];
      ["add a keystone habit"];
      ["short wins"; "breathing"; "walk"; "prioritize top 3"];
      ["short wins"; "breathing"; "walk"; "add a keystone habit"];
      ["prioritize top 3"; "add a keystone habit"];
      ["short wins"; "breathing"; "walk"; "prioritize top 3"; "add a keystone habit"] ].
Proof.
  unfold focus_spec, rule_mood, rule_tasks, rule_habits.
  destruct (bool_decide (mood_hint = Some "stressed" ∨ mood_hint = Some "sad"));
    destruct (bool_decide (5 < task_count)%nat);
    destruct (bool_decide (habit_count < 3)%nat);
    apply list_elem_of_In; simpl; tauto.
Qed.

(** C9. The focus of every generated plan is a list of between 1 and 5
    tags: the fallback, or a non-empty concatenation in rule order of the
    three rules' tag groups. *)
Theorem coach_focus_size conv (today : string) (now : Z)
    (user_id : string) (mood : option string) (st : store) :
  ∃ plan tags,
    generated_plan conv today now user_id mood (Some st) = Some plan
    ∧ plan !! "focus" = Some (PList (PStr <$> tags))
    ∧ (1 ≤ length tags ≤ 5)%nat
    ∧ tags ∈
        [ ["consistency"; "deep work"; "hydration"];
          ["short wins"; "breathing"; "walk"];
          ["prioritize top 3"];
          ["add a keystone habit"];
          ["short wins"; "breathing"; "walk"; "prioritize top 3"];
          ["short wins"; "breathing"; "walk"; "add a keystone habit"];
          ["prioritize top 3"; "add a keystone habit"];
          ["short wins"; "breathing"; "walk"; "prioritize top 3"; "add a keystone habit"] ].
Proof.
  eexists. eexists. split; [apply generated_plan_run|].
  split; [by simplify_map_eq|].
  rewrite coach_focus_spec.
  pose proof (focus_spec_cases mood (length (user_docs st "habit" user_id))
                (length (user_docs st "task" user_id))) as Hcases.
  split; [|exact Hcases].
  apply list_elem_of_In in Hcases. simpl in Hcases.
  repeat (destruct Hcases as [<-|Hcases]; [simpl; lia|]). destruct Hcases.
Qed.

(** C10. The handler takes any string as [mood] and checks it against
    nothing but the two strings "stressed" and "sad": with any other string,
    whether a mood of the enumeration, a differently-cased variant such as
    "Sad", or no mood name at all, the run returns what it returns with no
    mood supplied, leaves the same store and generates the same plan; with a
    configured store it never raises on account of the mood. *)
Theorem coach_plan_mood_unvalidated conv (today : string) (now : Z)
    (user_id : string) (s : string) (db : option store) :
  s ≠ "stressed" → s ≠ "sad" →
  generate_coach_plan conv today now user_id (Some s) db
    = generate_coach_plan conv today now user_id None db
  ∧ generated_plan conv today now user_id (Some s) db
    = generated_plan conv today now user_id None db
  ∧ (∀ st, is_ok (fst (generate_coach_plan conv today now user_id (Some s) (Some st))) = true).
Proof.
  intros H1 H2.
  assert (∀ habits tasks, coach_focus (Some s) habits tasks = coach_focus None habits tasks)
    as Hfocus.
  { assert (rule_mood (Some s) = rule_mood None) as Hr.
    { unfold rule_mood.
      rewrite (bool_decide_eq_false_2 (Some s = Some "stressed" ∨ Some s = Some "sad"))
        by (intros [[=]|[=]]; congruence).
      rewrite (bool_decide_eq_false_2 (@None string = Some "stressed" ∨ None = Some "sad"))
        by (intros [[=]|[=]]).
      reflexivity. }
    intros habits tasks. rewrite !coach_focus_spec. unfold focus_spec. by rewrite Hr. }
  assert (generate_coach_plan conv today now user_id (Some s) db
          = generate_coach_plan conv today now user_id None db) as Hrun.
  { destruct db as [st|]; [|reflexivity].
    by rewrite !generate_coach_plan_run, Hfocus. }
  split; [exact Hrun|]. split.
  - unfold generated_plan. by rewrite Hrun.
  - intros st. by rewrite generate_coach_plan_run.
Qed.

Lemma coach_plan_mood_unvalidated_witness :
  generate_coach_plan strict "2024-05-01" 0 "u1" (Some "Sad")
    (Some (sample_store [sample_doc "u1" "read"] [] []))
  = generate_coach_plan strict "2024-05-01" 0 "u1" None
      (Some (sample_store [sample_doc "u1" "read"] [] [])).
Proof.
  apply (coach_plan_mood_unvalidated strict "2024-05-01" 0 "u1" "Sad").
  - discriminate.
  - discriminate.
Defined.

(* ===================================================================== *)
(** ** Further properties of validation *)
(* ===================================================================== *)

(** The cases of [validate_type] on a scalar annotation: the value itself,
    or the result of a conversion. *)
Ltac scalar_case v H :=
  destruct v; simpl in H;
  try match type of H with context [fmap _ ?o] => destruct o; simpl in H end;
  simplify_eq; done.

Section ValidationMore.

Variable conv : conversions.
Implicit Types (sch : list field) (p q : gmap string pyval) (f : field).

(** Validation looks at a payload only through the declared fields. *)
Lemma validate_fields_ext sch p q :
  (∀ f, f ∈ sch → field_result conv p f = field_result conv q f) →
  validate_fields conv sch p = validate_fields conv sch q.
Proof.
  induction sch as [|g rest IH]; intros Hext; [done|].
  simpl. rewrite IH by (intros f Hf; apply Hext; by right).
  by rewrite (Hext g) by (by left).
Qed.

(** The instance has a key only for declared names. *)
Lemma validate_fields_lookup_inv sch p (s : string) w :
  (validate_fields conv sch p).2 !! s = Some w → s ∈ f_name <$> sch.
Proof.
  induction sch as [|g rest IH]; simpl; [by rewrite lookup_empty|].
  destruct (validate_fields conv rest p) as [errs inst]; simpl in IH.
  destruct (field_result conv p g); simpl.
  - destruct (decide (f_name g = s)) as [<-|Hne]; [intros _; by left|].
    rewrite lookup_insert_ne by done. intros H. right. by apply IH.
  - intros H. right. by apply IH.
Qed.

(** A validated value validates to itself. *)
Lemma validate_type_idem (t : ftype) : ∀ v w,
  validate_type conv t v = Some w → validate_type conv t w = Some w.
Proof.
  induction t as [| | | | | |t IH|t IH|vs]; intros v w H; simpl in *.
  - scalar_case v H.
  - scalar_case v H.
  - scalar_case v H.
  - scalar_case v H.
  - scalar_case v H.
  - scalar_case v H.
  - destruct v as [| | | | |l| |]; try done.
    destruct (mapM (validate_type conv t) l) as [l'|] eqn:E; [|done].
    simpl in H. injection H as <-. simpl.
    assert (mapM (validate_type conv t) l' = Some l') as ->; [|done].
    apply mapM_Some in E. apply mapM_Some.
    induction E as [|x y l l' Hxy _ IHl]; constructor; eauto.
  - destruct v; try (by simplify_eq);
      (destruct w; [done|by apply (IH _ _ H)..]).
  - destruct v as [| | | |s| | |]; try done.
    destruct (bool_decide (s ∈ vs)) eqn:E; [|done]. injection H as <-. simpl. by rewrite E.
Qed.

Lemma validate_field_idem f v w :
  validate_field conv f v = Some w → validate_field conv f w = Some w.
Proof.
  unfold validate_field. destruct (validate_type conv (f_type f) v) as [w'|] eqn:E; [|done].
  simpl. destruct (check_bounds (f_ge f) (f_le f) w') eqn:Eb; [|done].
  intros [= <-]. rewrite (validate_type_idem _ _ _ E). simpl. by rewrite Eb.
Qed.

(** A validated value has the annotated type. *)
Lemma validate_type_has_type (t : ftype) : ∀ v w,
  validate_type conv t v = Some w → has_type t w = true.
Proof.
  induction t as [| | | | | |t IH|t IH|vs]; intros v w H; simpl in *.
  - scalar_case v H.
  - scalar_case v H.
  - scalar_case v H.
  - scalar_case v H.
  - scalar_case v H.
  - scalar_case v H.
  - destruct v as [| | | | |l| |]; try done.
    destruct (mapM (validate_type conv t) l) as [l'|] eqn:E; [|done].
    simpl in H. injection H as <-.
    apply mapM_Some in E. apply forallb_forall. intros y Hy.
    apply list_elem_of_In in Hy.
    induction E as [|x y' l l' Hxy _ IHl]; [inversion Hy|].
    apply elem_of_cons in Hy as [->|Hy]; eauto.
  - destruct v; try (by simplify_eq);
      (destruct w; [done|by apply (IH _ _ H)..]).
  - destruct v as [| | | |s| | |]; try done.
    destruct (bool_decide (s ∈ vs)) eqn:E; [|done]. by injection H as <-.
Qed.

End ValidationMore.

Section ValidationInstances.

Variable conv : conversions.

(** Every declared default passes the checks of its own field, unchanged. *)
Lemma default_valid (k : kind) (f : field) (d : pyval) :
  f ∈ schema k → f_default f = Some d → validate_field conv f d = Some d.
Proof.
  intros Hf Hd. apply list_elem_of_In in Hf.
  destruct k; simpl in Hf;
    repeat (destruct Hf as [<-|Hf]; [simpl in Hd; simplify_eq; reflexivity|]);
    destruct Hf.
Qed.

(** Each field of an instance holds a value that passes the field's checks
    as it is. *)
Lemma instance_field_valid (k : kind) (p inst : gmap string pyval) (f : field) :
  validate conv (schema k) p = Ok inst → f ∈ schema k →
  ∃ w, inst !! f_name f = Some w ∧ validate_field conv f w = Some w.
Proof.
  intros Hok Hf.
  pose proof (validate_Ok_lookup conv (schema k) p inst f (schema_names_NoDup k) Hok Hf) as Hl.
  apply validate_Ok in Hok as [Herrs _].
  destruct (field_result conv p f) as [w|] eqn:Hr.
  - exists w. split; [done|]. unfold field_result in Hr.
    destruct (p !! f_name f) as [v|].
    + by apply (validate_field_idem conv f v).
    + by apply (default_valid k).
  - assert (f_name f ∈ (validate_fields conv (schema k) p).1) as He.
    { apply validate_fields_errs. by exists f. }
    rewrite Herrs in He. inversion He.
Qed.

End ValidationInstances.

(** X1. In every model a field declared without a default is required: a
    payload that lacks it is rejected, and the field is reported. *)
Theorem required_field_missing conv (k : kind) (f : field) (p : gmap string pyval) :
  f ∈ schema k → f_default f = None → p !! f_name f = None →
  ∃ errs, validate conv (schema k) p = Err errs ∧ f_name f ∈ errs.
Proof.
  intros Hf Hd Hp. apply (validate_rejects conv (schema k) p f Hf).
  unfold field_result. by rewrite Hp.
Qed.

Lemma required_field_missing_witness :
  ∃ errs, validate strict (schema KMoneyRecord)
            (<["type" := PStr "income"]>
               (<["date" := PStr "2024-05-01"]> {["user_id" := PStr "u1"]})) = Err errs
          ∧ "amount" ∈ errs.
Proof.
  apply (required_field_missing strict KMoneyRecord (req "amount" TFloat)).
  - apply list_elem_of_In. simpl. tauto.
  - reflexivity.
  - reflexivity.
Defined.

(** X3. Keys that the model does not declare are ignored: adding one to a
    payload changes neither the verdict nor the instance, so it is never
    stored. *)
Theorem undeclared_keys_ignored conv (k : kind) (p : gmap string pyval)
    (key : string) (v : pyval) :
  key ∉ f_name <$> schema k →
  validate conv (schema k) (<[key := v]> p) = validate conv (schema k) p.
Proof.
  intros Hkey. unfold validate.
  rewrite (validate_fields_ext conv (schema k) (<[key := v]> p) p); [done|].
  intros f Hf. unfold field_result. rewrite lookup_insert_ne; [done|].
  intros ->. apply Hkey. by apply list_elem_of_fmap_2.
Qed.

Lemma undeclared_keys_ignored_witness :
  validate strict (schema KHabit)
    (<["is_admin" := PBool true]>
       (<["name" := PStr "Read"]> {["user_id" := PStr "u1"]}))
  = validate strict (schema KHabit) (<["name" := PStr "Read"]> {["user_id" := PStr "u1"]}).
Proof.
  apply (undeclared_keys_ignored strict KHabit).
  apply (bool_decide_unpack _). vm_compute. reflexivity.
Defined.

(** X4. An instance has exactly the declared fields of its model as keys:
    every declared field is there (defaults filled in) and nothing else. *)
Theorem instance_keys conv (k : kind) (p inst : gmap string pyval) :
  validate conv (schema k) p = Ok inst →
  dom inst = list_to_set (f_name <$> schema k).
Proof.
  intros Hok. apply set_eq. intros s.
  rewrite elem_of_dom, elem_of_list_to_set. split.
  - intros [w Hw]. apply validate_Ok in Hok as [_ ->].
    by apply (validate_fields_lookup_inv conv _ p s w).
  - intros (f & -> & Hf)%list_elem_of_fmap.
    destruct (instance_field_valid conv k p inst f Hok Hf) as (w & Hw & _). by exists w.
Qed.

Lemma instance_keys_witness :
  dom (validate_fields strict Mood
         (<["mood" := PStr "calm"]>
            (<["date" := PStr "2024-05-01"]> {["user_id" := PStr "u1"]}))).2
  = list_to_set (f_name <$> schema KMood).
Proof.
  apply (instance_keys strict KMood
           (<["mood" := PStr "calm"]>
              (<["date" := PStr "2024-05-01"]> {["user_id" := PStr "u1"]}))).
  apply valid_payload_Ok. apply (bool_decide_unpack _). vm_compute. reflexivity.
Defined.

(** X5. The defaults declared in [schemas.py], which the validator fills in
    without checking, are all valid for their own field: each has the
    annotated type, belongs to the value set of an enumerated field, and is
    within the declared bounds. *)
Theorem declared_defaults_valid conv (k : kind) (f : field) (d : pyval) :
  f ∈ schema k → f_default f = Some d →
  validate_field conv f d = Some d
  ∧ has_type (f_type f) d = true
  ∧ check_bounds (f_ge f) (f_le f) d = true.
Proof.
  intros Hf Hd. pose proof (default_valid conv k f d Hf Hd) as Hv.
  split; [exact Hv|]. unfold validate_field in Hv.
  destruct (validate_type conv (f_type f) d) as [w|] eqn:E; [|done]. simpl in Hv.
  destruct (check_bounds (f_ge f) (f_le f) w) eqn:Eb; [|done].
  injection Hv as ->. split; [|exact Eb].
  by apply (validate_type_has_type conv (f_type f) d).
Qed.

Lemma declared_defaults_valid_witness :
  validate_field strict (opt_range "glow_intensity" TFloat (PFloat f_0_6) f_zero f_one)
    (PFloat f_0_6) = Some (PFloat f_0_6)
  ∧ has_type TFloat (PFloat f_0_6) = true
  ∧ check_bounds (Some f_zero) (Some f_one) (PFloat f_0_6) = true.
Proof.
  apply (declared_defaults_valid strict KPreferences
           (opt_range "glow_intensity" TFloat (PFloat f_0_6) f_zero f_one)).
  - apply list_elem_of_In. simpl. tauto.
  - reflexivity.
Defined.

(** X6. An instance validates to itself: submitting the fields of an
    accepted record again (defaults included) is accepted and gives the same
    instance. *)
Theorem revalidation_stable conv (k : kind) (p inst : gmap string pyval) :
  validate conv (schema k) p = Ok inst →
  validate conv (schema k) inst = Ok inst.
Proof.
  intros Hok.
  assert (validate_fields conv (schema k) inst = validate_fields conv (schema k) p) as Heq.
  { apply validate_fields_ext. intros f Hf.
    destruct (instance_field_valid conv k p inst f Hok Hf) as (w & Hw & Hv).
    rewrite <- (validate_Ok_lookup conv (schema k) p inst f (schema_names_NoDup k) Hok Hf).
    unfold field_result. by rewrite Hw. }
  unfold validate in *. by rewrite Heq.
Qed.

Lemma revalidation_stable_witness :
  validate strict (schema KTask)
    (validate_fields strict Task
       (<["title" := PStr "Write report"]> {["user_id" := PStr "u1"]})).2
  = Ok (validate_fields strict Task
          (<["title" := PStr "Write report"]> {["user_id" := PStr "u1"]})).2.
Proof.
  apply (revalidation_stable strict KTask
           (<["title" := PStr "Write report"]> {["user_id" := PStr "u1"]})).
  apply valid_payload_Ok. apply (bool_decide_unpack _). vm_compute. reflexivity.
Defined.

(** X7. Every field of an instance holds a value of its annotated type: an
    enumerated field holds one of its strings, a list field a list of
    well-typed items, an [Optional] field [None] or a value of the inner
    type, and a bounded float is neither below its lower nor above its
    upper bound.  This holds for converted values and for defaults alike. *)
Theorem instance_well_typed conv (k : kind) (p inst : gmap string pyval) (f : field) :
  validate conv (schema k) p = Ok inst → f ∈ schema k →
  ∃ w, inst !! f_name f = Some w
       ∧ has_type (f_type f) w = true
       ∧ check_bounds (f_ge f) (f_le f) w = true.
Proof.
  intros Hok Hf.
  destruct (instance_field_valid conv k p inst f Hok Hf) as (w & Hw & Hv).
  exists w. split; [exact Hw|]. unfold validate_field in Hv.
  destruct (validate_type conv (f_type f) w) as [w'|] eqn:E; [|done]. simpl in Hv.
  destruct (check_bounds (f_ge f) (f_le f) w') eqn:Eb; [|done].
  injection Hv as ->. split; [|exact Eb].
  by apply (validate_type_has_type conv (f_type f) w).
Qed.

Lemma instance_well_typed_witness :
  ∃ w, (validate_fields strict Preferences
          (<["glow_intensity" := PInt 1]> {["user_id" := PStr "u1"]})).2
         !! "glow_intensity" = Some w
       ∧ has_type TFloat w = true
       ∧ check_bounds (Some f_zero) (Some f_one) w = true.
Proof.
  apply (instance_well_typed strict KPreferences
           (<["glow_intensity" := PInt 1]> {["user_id" := PStr "u1"]}) _
           (opt_range "glow_intensity" TFloat (PFloat f_0_6) f_zero f_one)).
  - apply valid_payload_Ok. apply (bool_decide_unpack _). vm_compute. reflexivity.
  - apply list_elem_of_In. simpl. tauto.
Defined.

(** X8. An explicit [None] is not an absent field.  For a field annotated
    [Optional], a payload that gives [None] yields an instance holding
    [None], not the declared default (a Task with
    [pomodoro_minutes = None] keeps [None], not 25).  For a field annotated
    [str], [dict], a list or a [Literal], [None] is rejected and the field
    reported. *)
Theorem explicit_none conv (k : kind) (f : field) (p : gmap string pyval) :
  f ∈ schema k → p !! f_name f = Some PNone →
  (∀ t inst, f_type f = TOptional t → validate conv (schema k) p = Ok inst →
     inst !! f_name f = Some PNone)
  ∧ ((f_type f = TStr ∨ f_type f = TDict ∨ (∃ t, f_type f = TList t)
      ∨ (∃ vs, f_type f = TLiteral vs)) →
     ∃ errs, validate conv (schema k) p = Err errs ∧ f_name f ∈ errs).
Proof.
  intros Hf Hp. split.
  - intros t inst Ht Hok.
    rewrite (validate_Ok_lookup conv (schema k) p inst f (schema_names_NoDup k) Hok Hf).
    unfold field_result, validate_field. rewrite Hp, Ht. reflexivity.
  - intros Ht. apply (validate_rejects conv (schema k) p f Hf).
    unfold field_result, validate_field. rewrite Hp.
    destruct Ht as [-> | [-> | [[t ->] | [vs ->]]]]; reflexivity.
Qed.

Lemma explicit_none_witness :
  (validate_fields strict Task
     (<["pomodoro_minutes" := PNone]>
        (<["title" := PStr "Write report"]> {["user_id" := PStr "u1"]}))).2
    !! "pomodoro_minutes" = Some PNone.
Proof.
  apply (proj1 (explicit_none strict KTask
                  (opt "pomodoro_minutes" (TOptional TInt) (PInt 25))
                  (<["pomodoro_minutes" := PNone]>
                     (<["title" := PStr "Write report"]> {["user_id" := PStr "u1"]}))
                  ltac:(apply list_elem_of_In; simpl; tauto) eq_refl) TInt).
  - reflexivity.
  - apply valid_payload_Ok. apply (bool_decide_unpack _). vm_compute. reflexivity.
Defined.

(* ===================================================================== *)
(** ** The create and list endpoints *)
(* ===================================================================== *)

Section EndpointFacts.

Variable conv : conversions.
Variable now : Z.

(** Each POST handler validates the body against its model and inserts the
    instance into the collection named after the model's class, in lower
    case. *)
Lemma post_unfold (r : path) (body : document) :
  post conv now r body =
    (inst ← construct conv (schema (model_of r)) body;
     _insert now (schema_name (model_of r)) inst).
Proof. destruct r; reflexivity. Qed.

Lemma get_unfold (r : path) (lst : string → M (list document)) :
  get r = Some lst → lst = list_docs (schema_name (model_of r)).
Proof. destruct r; intros [= <-]; reflexivity. Qed.






End EndpointFacts.

(** X9. A body that fails validation never reaches the store: each of the
    ten create endpoints raises the validation error, with every field in
    error, and leaves the store untouched, configured or not. *)
Theorem post_rejected conv (now : Z) (r : path) (body : document)
    (errs : list string) (db : option store) :
  validate conv (schema (model_of r)) body = Err errs →
  post conv now r body db = (Err (ValidationError errs), db).
Proof.
  intros Herr. rewrite post_unfold.
  unfold mbind, M_bind, bind, construct. by rewrite Herr.
Qed.

Lemma post_rejected_witness :
  post strict 0 P_mood
    (<["mood" := PStr "Stressed"]> {["user_id" := PStr "u1"]})
    (Some (sample_store [] [] []))
  = (Err (ValidationError ["date"; "mood"]), Some (sample_store [] [] [])).
Proof.
  apply (post_rejected strict 0 P_mood).
  vm_compute. reflexivity.
Defined.





(** X12. Without a configured store nothing is silently dropped: every
    create endpoint, given a valid body, and every list endpoint answers
    with an HTTP 500 raised from the store's refusal, and no store comes
    into being. *)
Theorem endpoints_not_configured conv (now : Z) (r : path) :
  (∀ body inst,
      validate conv (schema (model_of r)) body = Ok inst →
      post conv now r body None = (Err (HTTPException 500 NotConfigured), None))
  ∧ (∀ lst user_id,
      get r = Some lst →
      lst user_id None = (Err (HTTPException 500 NotConfigured), None)).
Proof.
  split.
  - intros body inst Hok. rewrite post_unfold.
    unfold mbind, M_bind, bind, construct. by rewrite Hok.
  - intros lst user_id Hget. by rewrite (get_unfold r lst Hget).
Qed.

Lemma endpoints_not_configured_witness :
  list_tasks "u1" None = (Err (HTTPException 500 NotConfigured), None).
Proof.
  apply (proj2 (endpoints_not_configured strict 0 P_task) list_tasks "u1").
  reflexivity.
Defined.

(* ===================================================================== *)
(** ** More on the coach plan *)
(* ===================================================================== *)


(* ===================================================================== *)
(** ** The diagnostic endpoint *)
(* ===================================================================== *)

Lemma take_chars_all (n : nat) (s : string) :
  (char_count s ≤ n)%nat → take_chars n s = s.
Proof.
  revert n. induction s as [|a rest IH]; intros n; simpl; [done|].
  destruct (is_continuation a); simpl; intros H.
  - by rewrite IH.
  - destruct n as [|n']; [lia|]. rewrite IH; [done|lia].
Qed.

(** X14. What [test_database] reads with [os.getenv] enters the report
    only as a mark: for the same store and the same answer of the driver,
    two environments in which [DATABASE_URL] and [DATABASE_NAME] are each
    either both set to a non-empty value or both not give the same report;
    a variable that is unset or set to the empty string is shown as not
    set.  (The text of a driver error, which the report quotes, is not part
    of this statement.) *)
Theorem test_database_env_hidden
    (list_collection_names : store → result string (list string))
    (getenv1 getenv2 : string → option string) (db : option store) :
  env_set getenv1 "DATABASE_URL" = env_set getenv2 "DATABASE_URL" →
  env_set getenv1 "DATABASE_NAME" = env_set getenv2 "DATABASE_NAME" →
  test_database list_collection_names getenv1 db
    = test_database list_collection_names getenv2 db
  ∧ (∀ st name, name = "DATABASE_URL" ∨ name = "DATABASE_NAME" →
       getenv1 name = Some "" ∨ getenv1 name = None →
       env_set getenv1 name = false
       ∧ ∀ names, list_collection_names st = Ok names →
           test_database list_collection_names getenv1 (Some st)
             !! (if bool_decide (name = "DATABASE_URL")
                 then "database_url" else "database_name")
           = Some (PStr "❌ Not Set")).
Proof.
  intros Hurl Hname. split.
  - unfold test_database. destruct db as [st|]; [|done]. by rewrite Hurl, Hname.
  - intros st name Hn Hv.
    assert (env_set getenv1 name = false) as Hset.
    { unfold env_set. by destruct Hv as [-> | ->]. }
    split; [done|]. intros names Hl. unfold test_database. rewrite Hl.
    destruct Hn as [-> | ->]; rewrite Hset; simpl;
      repeat (rewrite lookup_insert_ne by done); by rewrite lookup_insert_eq.
Qed.

Lemma test_database_env_hidden_witness :
  test_database (λ _, Ok ["habit"])
    (λ name, if String.eqb name "DATABASE_URL" then Some "mongodb://a:secret@h1/x"
             else Some "prod")
    (Some (sample_store [] [] []))
  = test_database (λ _, Ok ["habit"])
      (λ name, if String.eqb name "DATABASE_URL" then Some "mongodb://localhost"
               else Some "dev")
      (Some (sample_store [] [] [])).
Proof.
  apply (test_database_env_hidden (λ _, Ok ["habit"])
           (λ name, if String.eqb name "DATABASE_URL" then Some "mongodb://a:secret@h1/x"
                    else Some "prod")
           (λ name, if String.eqb name "DATABASE_URL" then Some "mongodb://localhost"
                    else Some "dev")).
  - reflexivity.
  - reflexivity.
Defined.

(** The first [n] characters of a string: how many there are, where the
    cut falls, and that these two facts leave no other choice. *)
Lemma take_chars_count (n : nat) (s : string) :
  char_count (take_chars n s) = Nat.min n (char_count s).
Proof.
  revert n. induction s as [|a rest IH]; intros n; simpl; [lia|].
  destruct (is_continuation a) eqn:E; simpl; rewrite ?E.
  - apply IH.
  - destruct n as [|n']; simpl; rewrite ?E; [lia|]. rewrite IH. lia.
Qed.

Lemma take_chars_split (n : nat) (s : string) :
  ∃ rest, s = take_chars n s ++ rest
          ∧ (rest = "" ∨ ∃ a r, rest = String a r ∧ is_continuation a = false).
Proof.
  revert n. induction s as [|a rest IH]; intros n; simpl; [exists ""; by split; [|left]|].
  destruct (is_continuation a) eqn:E.
  - destruct (IH n) as (r & Hr & Hb). exists r. split; [exact (f_equal (String a) Hr) | exact Hb].
  - destruct n as [|n'].
    + exists (String a rest). split; [reflexivity|]. right. by exists a, rest.
    + destruct (IH n') as (r & Hr & Hb). exists r.
      split; [exact (f_equal (String a) Hr) | exact Hb].
Qed.

Lemma take_chars_unique (n : nat) (s t r : string) :
  s = t ++ r →
  char_count t = Nat.min n (char_count s) →
  (r = "" ∨ ∃ a r', r = String a r' ∧ is_continuation a = false) →
  t = take_chars n s.
Proof.
  revert n t. induction s as [|a rest IH]; intros n t Hs Hc Hb.
  - destruct t as [|b t']; [done|]. discriminate Hs.
  - destruct t as [|b t'].
    + change (String a rest = r) in Hs. subst r.
      destruct Hb as [Hb | (a' & r' & Hb & Ha)]; [discriminate Hb|].
      injection Hb as <- <-. simpl in *. rewrite Ha in *.
      destruct n as [|n']; [done|]. simpl in Hc. lia.
    + change (String a rest = String b (t' ++ r)) in Hs. injection Hs as <- Hrest.
      simpl in *. destruct (is_continuation a) eqn:Ha; simpl in Hc.
      * f_equal. by apply IH.
      * destruct n as [|n']; [simpl in Hc; lia|]. f_equal. apply IH; [done| |done].
        lia.
Qed.

(** X15. When listing the collections raises, the report is still
    returned: [database] becomes the error mark followed by the first 80
    characters of the message, that is, the one prefix of the message that
    has 80 characters (all of them, when there are no more) and ends where a
    character ends; while [connection_status] keeps saying "Connected" and
    [collections] stays empty. *)
Theorem test_database_listing_fails
    (list_collection_names : store → result string (list string))
    (getenv : string → option string) (st : store) (msg : string) :
  list_collection_names st = Err msg →
  ∃ shown rest,
    test_database list_collection_names getenv (Some st) !! "database"
      = Some (PStr ("❌ Error: " ++ shown))
    ∧ msg = shown ++ rest
    ∧ char_count shown = Nat.min 80 (char_count msg)
    ∧ (rest = "" ∨ ∃ a r, rest = String a r ∧ is_continuation a = false)
    ∧ ((char_count msg ≤ 80)%nat → shown = msg)
    ∧ (∀ t r, msg = t ++ r →
         char_count t = Nat.min 80 (char_count msg) →
         (r = "" ∨ ∃ a r', r = String a r' ∧ is_continuation a = false) →
         t = shown)
    ∧ test_database list_collection_names getenv (Some st) !! "connection_status"
      = Some (PStr "Connected")
    ∧ test_database list_collection_names getenv (Some st) !! "collections"
      = Some (PList [])
    ∧ test_database list_collection_names getenv (Some st) !! "backend"
      = Some (PStr "✅ Running").
Proof.
  intros Hl. destruct (take_chars_split 80 msg) as (rest & Hsplit & Hb).
  exists (take_chars 80 msg), rest.
  unfold test_database. rewrite Hl.
  split; [by rewrite lookup_insert_eq|].
  split; [exact Hsplit|].
  split; [apply take_chars_count|].
  split; [exact Hb|].
  split; [apply take_chars_all|].
  split; [intros t r; apply take_chars_unique|].
  repeat split; repeat (rewrite lookup_insert_ne by done); by rewrite lookup_insert_eq.
Qed.

Lemma test_database_listing_fails_witness :
  test_database
    (λ _, Err "mongodb.example.net:27017: [Errno 111] Connection refused (configured timeouts: socketTimeoutMS: 20000.0ms)")
    (λ _, None) (Some (sample_store [] [] [])) !! "database"
  = Some (PStr ("❌ Error: " ++
                "mongodb.example.net:27017: [Errno 111] Connection refused (configured timeouts: ")).
Proof.
  destruct (test_database_listing_fails
              (λ _, Err "mongodb.example.net:27017: [Errno 111] Connection refused (configured timeouts: socketTimeoutMS: 20000.0ms)")
              (λ _, None) (sample_store [] [] [])
              "mongodb.example.net:27017: [Errno 111] Connection refused (configured timeouts: socketTimeoutMS: 20000.0ms)"
              eq_refl)
    as (shown & rest & Hdb & _ & _ & _ & _ & Huniq & _).
  rewrite Hdb. f_equal. f_equal. f_equal. symmetry.
  apply (Huniq _ "socketTimeoutMS: 20000.0ms)").
  - reflexivity.
  - vm_compute. reflexivity.
  - right. eexists. eexists. split; [reflexivity|]. reflexivity.
Defined.

(** X16. The report always has the same six keys and always says the
    backend is running; without a store it is the fixed "not available"
    report, whatever the environment holds, and with a store whose
    collections can be listed it names them. *)
Theorem test_database_report
    (list_collection_names : store → result string (list string))
    (getenv : string → option string) (db : option store) :
  dom (test_database list_collection_names getenv db)
    = list_to_set ["backend"; "database"; "database_url"; "database_name";
                   "connection_status"; "collections"]
  ∧ test_database list_collection_names getenv db !! "backend" = Some (PStr "✅ Running")
  ∧ match db with
    | None =>
        test_database list_collection_names getenv db !! "database"
          = Some (PStr "❌ Not Available")
        ∧ test_database list_collection_names getenv db !! "database_url" = Some PNone
        ∧ test_database list_collection_names getenv db !! "database_name" = Some PNone
        ∧ test_database list_collection_names getenv db !! "connection_status"
          = Some (PStr "Not Connected")
        ∧ test_database list_collection_names getenv db !! "collections" = Some (PList [])
    | Some st =>
        ∀ names, list_collection_names st = Ok names →
          test_database list_collection_names getenv db !! "database"
            = Some (PStr "✅ Connected & Working")
          ∧ test_database list_collection_names getenv db !! "connection_status"
            = Some (PStr "Connected")
          ∧ test_database list_collection_names getenv db !! "collections"
            = Some (PList (PStr <$> names))
    end.
Proof.
  split; [|split].
  - unfold test_database. destruct db as [st|];
      [destruct (list_collection_names st)|];
      rewrite !dom_insert_L, dom_empty_L; set_solver.
  - unfold test_database. destruct db as [st|];
      [destruct (list_collection_names st)|];
      repeat (rewrite lookup_insert_ne by done); by rewrite lookup_insert_eq.
  - unfold test_database. destruct db as [st|].
    + intros names ->.
      repeat split; repeat (rewrite lookup_insert_ne by done); by rewrite lookup_insert_eq.
    + repeat split; repeat (rewrite lookup_insert_ne by done); by rewrite lookup_insert_eq.
Qed.

Lemma test_database_report_witness :
  test_database (λ _, Ok ["habit"; "task"]) (λ _, None)
    (Some (sample_store [] [] [])) !! "collections"
  = Some (PList [PStr "habit"; PStr "task"]).
Proof.
  apply (proj2 (proj2 (test_database_report (λ _, Ok ["habit"; "task"]) (λ _, None)
                         (Some (sample_store [] [] [])))) ["habit"; "task"] eq_refl).
Defined.
